(** * Market-maker keepers: the per-tick reconciliation algorithms

    A shallow embedding of the three keepers of [market_maker_keeper]:
    the order-book keepers for eToro and Kraken ([synchronize_orders],
    [place_orders] and their helpers) and the Uniswap liquidity keeper
    ([place_liquidity]).

    A tick is a program in a small monad that records, in order, the calls
    the keeper makes on its collaborators (the pricing policy [Bands], the
    [OrderBookManager], the Uniswap wrapper) and that can end in a Python
    exception.  What the collaborators answer is an input of the tick. *)

From Stdlib Require Import ZArith QArith Qminmax List String Ascii Bool Lia Permutation Floats.
From stdpp Require Import base option strings gmap.
Import ListNotations.
Local Open Scope Z_scope.

(** ** Python strings, as far as the keepers use them

    Pairs and currency symbols are ASCII: a string is the list of its
    characters.  [lower] and [upper] are [str.lower()] and [str.upper()] on
    ASCII strings; on other characters they do not follow Python, and every
    property that depends on them is stated for ASCII strings ([is_ascii]). *)
Module PyStr.

(** [c.lower()] and [c.upper()] on one ASCII character. *)
Definition lower_char (c : ascii) : ascii :=
  let n := nat_of_ascii c in
  if ((65 <=? n) && (n <=? 90))%nat then ascii_of_nat (n + 32) else c.

Definition upper_char (c : ascii) : ascii :=
  let n := nat_of_ascii c in
  if ((97 <=? n) && (n <=? 122))%nat then ascii_of_nat (n - 32) else c.

Fixpoint map_chars (f : ascii -> ascii) (s : string) : string :=
  match s with
  | EmptyString => EmptyString
  | String c s' => String (f c) (map_chars f s')
  end.

Definition lower : string -> string := map_chars lower_char.
Definition upper : string -> string := map_chars upper_char.

(** [s[:n]]: the first [n] characters, all of [s] when it is shorter. *)
Fixpoint take (n : nat) (s : string) : string :=
  match n, s with
  | S n', String c s' => String c (take n' s')
  | _, _ => EmptyString
  end.

(** [s[n:]]: what is left after the first [n] characters. *)
Fixpoint drop (n : nat) (s : string) : string :=
  match n, s with
  | S n', String _ s' => drop n' s'
  | _, _ => s
  end.

(** [s.split(sep)] for a separator of one character: never an empty list. *)
Fixpoint split (sep : ascii) (s : string) : list string :=
  match s with
  | EmptyString => [EmptyString]
  | String c s' =>
      if Ascii.eqb c sep then EmptyString :: split sep s'
      else match split sep s' with
           | w :: ws => String c w :: ws
           | [] => [String c EmptyString]
           end
  end.

(** [''.join(parts)]. *)
Definition join (parts : list string) : string :=
  fold_right String.append EmptyString parts.

End PyStr.

(** ** Exceptions and the tick monad *)

(** The Python exceptions the modelled code can end in: those it raises by
    itself, and [VenueError] for a call a venue client refused. *)
Inductive Exn : Type :=
| IndexError
| ZeroDivisionError
| ValueError
| OverflowError
| NameError
| VenueError.

(** The result of running a piece of keeper code: the calls it made on its
    collaborators, in order, the state it left, and either the exception
    that ended it or its value. *)
Record Res (E S A : Type) : Type := mkRes {
  events : list E;
  final : S;
  outcome : Exn + A
}.
Arguments mkRes {E S A} _ _ _.
Arguments events {E S A} _.
Arguments final {E S A} _.
Arguments outcome {E S A} _.

Definition prog (E S A : Type) : Type := S -> Res E S A.

Section Prog.
Context {E S : Type}.

Definition ret {A : Type} (a : A) : prog E S A :=
  fun s => mkRes [] s (inr a).

Definition raise {A : Type} (e : Exn) : prog E S A :=
  fun s => mkRes [] s (inl e).

Definition bind {A B : Type} (m : prog E S A) (k : A -> prog E S B) : prog E S B :=
  fun s =>
    let r := m s in
    match outcome r with
    | inl e => mkRes (events r) (final r) (inl e)
    | inr a =>
        let r' := k a (final r) in
        mkRes (events r ++ events r') (final r') (outcome r')
    end.

(** One call on a collaborator. *)
Definition emit (e : E) : prog E S unit :=
  fun s => mkRes [e] s (inr tt).

Definition get : prog E S S :=
  fun s => mkRes [] s (inr s).

Definition put (s : S) : prog E S unit :=
  fun _ => mkRes [] s (inr tt).

(** [x[0]] on a list, [IndexError] when it is empty. *)
Definition first_item {A : Type} (l : list A) : prog E S A :=
  match l with
  | x :: _ => ret x
  | [] => raise IndexError
  end.

(** [x[1]] on a list. *)
Definition second_item {A : Type} (l : list A) : prog E S A :=
  match l with
  | _ :: x :: _ => ret x
  | _ => raise IndexError
  end.

(** [for x in l: body(x)]. *)
Fixpoint for_each {A : Type} (l : list A) (body : A -> prog E S unit) : prog E S unit :=
  match l with
  | [] => ret tt
  | x :: l' => bind (body x) (fun _ => for_each l' body)
  end.

(** [wp m s Q]: running [m] from the state [s] gives events, a final state
    and an outcome that satisfy [Q]. *)
Definition wp {A : Type} (m : prog E S A) (s : S) (Q : list E -> S -> Exn + A -> Prop) : Prop :=
  Q (events (m s)) (final (m s)) (outcome (m s)).

End Prog.

Notation "'let*' x ':=' m 'in' k" := (bind m (fun x => k))
  (at level 10, x name, m at level 100, k at level 200).
Notation "m ';;;' k" := (bind m (fun _ => k))
  (at level 100, k at level 200, right associativity).

(** A fixed-point amount ([pymaker.numeric.Wad]): the integer [value] it
    wraps, in units of 10^-18.  Python integers are unbounded, and [Wad]
    subtraction is the subtraction of the values. *)
Definition Wad : Type := Z.

(** ** What both order-book keepers share

    Both keepers are written against [Bands] (the pricing policy) and
    [OrderBookManager]; their order and balance types differ by venue. *)

(** Modelled from the spec: the target price, the number that
    [price_feed.get_price()] returns ([market_maker_keeper/price_feed.py] is
    not among the sources); the keepers only hand it on to the policy. *)
Definition Price : Type := Wad.

(** [NewOrder], the policy's output, with the fields the keepers read. *)
Record NewOrder : Type := mkNewOrder {
  new_is_sell : bool;
  new_price : Wad;
  pay_amount : Wad;
  buy_amount : Wad
}.

(** A deferred submission: a lambda of no required argument whose body is
    [place_order_function(new_order)].  [new_order_default] is the default
    of its parameter [new_order], which Python evaluates once, when the
    lambda is created; a lambda that declares no such parameter reads the
    variable of the enclosing frame each time it runs. *)
Record Task : Type := mkTask {
  new_order_default : option NewOrder
}.

(** The local variable [new_order] of a [place_orders] call at the moment a
    task runs: unbound before the loop, the last item taken once the loop
    is over. *)
Definition Frame : Type := option NewOrder.

(** The value the name [new_order] has in the body of a running task: the
    task's own parameter when it has one, the enclosing variable else. *)
Definition resolve_new_order (task : Task) (frame : Frame) : option NewOrder :=
  match new_order_default task with
  | Some bound => Some bound
  | None => frame
  end.

(** The expression [lambda new_order=new_order: place_order_function(new_order)],
    evaluated while the loop variable holds [new_order]. *)
Definition submission_lambda (new_order : NewOrder) : Task :=
  mkTask (Some new_order).

Section OrderBook.
Context {Order Balances : Type}.

(** The snapshot [order_book_manager.get_order_book()] returns. *)
Record OrderBook : Type := mkOrderBook {
  orders : list Order;
  balances : Balances;
  orders_being_placed : bool;
  orders_being_cancelled : bool
}.

(** The policy, [Bands.read(...)]: the two methods the keepers call.
    [new_orders] returns a tuple of which the keepers take component [0]. *)
Record Bands : Type := mkBands {
  cancellable_orders : list Order -> list Order -> Price -> list Order;
  new_orders : list Order -> list Order -> Wad -> Wad -> Price -> list NewOrder * Wad
}.

(** The calls one tick makes, with their arguments. *)
Inductive Event : Type :=
| CancellableOrdersCall (our_buy_orders our_sell_orders : list Order) (target_price : Price)
| CancelOrders (cancellable : list Order)
| LogDebug (message : string)
| NewOrdersCall (our_buy_orders our_sell_orders : list Order)
                (our_buy_balance our_sell_balance : Wad) (target_price : Price)
| PlaceOrder (task : Task).

(** [bands.cancellable_orders(...)]. *)
Definition call_cancellable_orders (bands : Bands) (buys sells : list Order) (target : Price)
  : prog Event unit (list Order) :=
  emit (CancellableOrdersCall buys sells target) ;;;
  ret (cancellable_orders bands buys sells target).

(** [bands.new_orders(...)]. *)
Definition call_new_orders (bands : Bands) (buys sells : list Order)
    (buy_balance sell_balance : Wad) (target : Price)
  : prog Event unit (list NewOrder * Wad) :=
  emit (NewOrdersCall buys sells buy_balance sell_balance target) ;;;
  ret (new_orders bands buys sells buy_balance sell_balance target).

(** The tasks a tick handed to [order_book_manager.place_order], in order. *)
Definition scheduled_tasks (evs : list Event) : list Task :=
  flat_map (fun e => match e with PlaceOrder t => [t] | _ => [] end) evs.

(** The order sets a tick handed to [order_book_manager.cancel_orders]. *)
Definition cancellations (evs : list Event) : list (list Order) :=
  flat_map (fun e => match e with CancelOrders c => [c] | _ => [] end) evs.

(** The balances a tick handed to [bands.new_orders]: (buy, sell) per call. *)
Definition balances_passed (evs : list Event) : list (Wad * Wad) :=
  flat_map (fun e => match e with
                     | NewOrdersCall _ _ b s _ => [(b, s)]
                     | _ => []
                     end) evs.

End OrderBook.
Arguments OrderBook : clear implicits.
Arguments Bands : clear implicits.
Arguments Event : clear implicits.

(** Running a tick of an order-book keeper: it has no state of its own. *)
Definition run_tick {E A : Type} (m : prog E unit A) : Res E unit A := m tt.

(** ** The eToro keeper *)
Module EToro.

(** [pyexchange.etoro.Order], as [place_order_function] builds it. *)
Record Order : Type := mkOrder {
  order_id : string;
  timestamp : string;
  pair_of : string;
  is_sell : bool;
  price : Wad;
  amount : Wad
}.

(** One entry of [etoro_api.get_balances()]: a dict with the keys
    ['currency'] and ['balance'].  The reported number is held as the [Wad]
    that [Wad.from_number] makes of it. *)
Record BalanceEntry : Type := mkBalance {
  currency : string;
  balance : Wad
}.

Definition Tick : Type -> Type := prog (Event Order) unit.

(** [self.arguments.pair.lower()]. *)
Definition pair (arguments_pair : string) : string :=
  PyStr.lower arguments_pair.

(** [self.arguments.pair.split('_')[0].lower()]. *)
Definition token_sell (arguments_pair : string) : Tick string :=
  let* part := first_item (PyStr.split "_" arguments_pair) in
  ret (PyStr.lower part).

(** [self.arguments.pair.split('_')[1].lower()]. *)
Definition token_buy (arguments_pair : string) : Tick string :=
  let* part := second_item (PyStr.split "_" arguments_pair) in
  ret (PyStr.lower part).

(** [list(filter(lambda x: x['currency'] == token, our_balances))[0]['balance']]. *)
Definition our_available_balance (our_balances : list BalanceEntry) (token : string)
  : Tick Wad :=
  let* entry := first_item
                  (List.filter (fun x => String.eqb (currency x) token) our_balances) in
  ret (balance entry).

Definition our_sell_orders (our_orders : list Order) : list Order :=
  List.filter (fun order => is_sell order) our_orders.

Definition our_buy_orders (our_orders : list Order) : list Order :=
  List.filter (fun order => negb (is_sell order)) our_orders.

(** [''.join(string.split('_')).lower()]. *)
Definition _join_string (s : string) : string :=
  PyStr.lower (PyStr.join (PyStr.split "_" s)).

(** The loop of [place_orders]: one [order_book_manager.place_order] call per
    new order, with the lambda created in that iteration. *)
Definition place_orders (new_orders : list NewOrder) : Tick unit :=
  for_each new_orders (fun new_order => emit (PlaceOrder (submission_lambda new_order))).

Definition synchronize_orders (arguments_pair : string) (bands : Bands Order)
    (order_book : OrderBook Order (list BalanceEntry)) (target_price : Price)
  : Tick unit :=
  (* Cancel orders *)
  let* cancellable :=
    call_cancellable_orders bands (our_buy_orders (orders order_book))
                            (our_sell_orders (orders order_book)) target_price in
  if (0 <? length cancellable)%nat then
    emit (CancelOrders cancellable)
  else
  (* Do not place new orders if order book state is not confirmed *)
  if orders_being_placed order_book || orders_being_cancelled order_book then
    emit (LogDebug "Order book is in progress, not placing new orders")
  else
  (* Place new orders *)
  let buys := our_buy_orders (orders order_book) in
  let sells := our_sell_orders (orders order_book) in
  let* buy_token := token_buy arguments_pair in
  let* our_buy_balance := our_available_balance (balances order_book) buy_token in
  let* sell_token := token_sell arguments_pair in
  let* our_sell_balance := our_available_balance (balances order_book) sell_token in
  let* generated := call_new_orders bands buys sells our_buy_balance our_sell_balance
                                    target_price in
  place_orders (fst generated).

(** *** Inside a scheduled task *)

(** The arguments of [etoro_api.place_order]. *)
Record PlaceRequest : Type := mkRequest {
  req_pair : string;
  req_side : string;
  req_price : Wad;
  req_amount : Wad
}.

Definition order_amount (new_order : NewOrder) : Wad :=
  if new_is_sell new_order then pay_amount new_order else buy_amount new_order.

Definition place_request (arguments_pair : string) (new_order : NewOrder) : PlaceRequest :=
  mkRequest (_join_string (pair arguments_pair))
            (if Bool.eqb (new_is_sell new_order) true then "sell" else "buy")
            (new_price new_order)
            (order_amount new_order).

(** [place_order_function]: [api] is the venue's answer to a request (the
    order id as [str] prints it, or the exception the client raised) and
    [now] the clock's reading. *)
Definition place_order_function (arguments_pair : string)
    (api : PlaceRequest -> Exn + string) (now : string) (new_order_to_be_placed : NewOrder)
  : prog PlaceRequest unit Order :=
  let amount := order_amount new_order_to_be_placed in
  let request := place_request arguments_pair new_order_to_be_placed in
  emit request ;;;
  match api request with
  | inl e => raise e
  | inr id =>
      ret (mkOrder id now (_join_string (pair arguments_pair))
                   (new_is_sell new_order_to_be_placed)
                   (new_price new_order_to_be_placed) amount)
  end.

(** Calling the task with no argument, while the enclosing variable is as
    [frame] says. *)
Definition call_task (arguments_pair : string) (api : PlaceRequest -> Exn + string)
    (now : string) (frame : Frame) (task : Task) : prog PlaceRequest unit Order :=
  match resolve_new_order task frame with
  | Some new_order => place_order_function arguments_pair api now new_order
  | None => raise NameError
  end.

(** Modelled from the spec: the worker pool behind
    [order_book_manager.place_order] ([market_maker_keeper/order_book.py] is
    not among the sources).  Each scheduled task runs as a unit of work of
    its own, at some later moment of the enclosing frame; a submission that
    fails is dropped and the others still run. *)
Definition execute (arguments_pair : string) (api : PlaceRequest -> Exn + string)
    (now : string) (frame : Frame) (tasks : list Task)
  : list (Res PlaceRequest unit Order) :=
  map (fun task => run_tick (call_task arguments_pair api now frame task)) tasks.

(** The submissions attempted by a run of the pool. *)
Definition attempted {A : Type} (runs : list (Res PlaceRequest unit A)) : list PlaceRequest :=
  flat_map events runs.

End EToro.

(** ** The Kraken keeper *)
Module Kraken.

(** [pyexchange.kraken.Order], as [place_order_function] builds it. *)
Record Order : Type := mkOrder {
  order_id : string;
  pair_of : string;
  is_sell : bool;
  price : Wad;
  amount : Wad;
  filled_amount : Wad
}.

(** What [__init__] and [startup] leave in the keeper: the [--pair] argument,
    [kraken_api.get_assets()] as the list of (symbol, altname) in the dict's
    iteration order, and the pair's price precision. *)
Record Keeper : Type := mkKeeper {
  arguments_pair : string;
  assets : list (string * string);
  pair_precision : Z
}.

Definition Tick : Type -> Type := prog (Event Order) unit.

(** [self.arguments.pair.upper()]. *)
Definition pair (self : Keeper) : string :=
  PyStr.upper (arguments_pair self).

(** [self.arguments.pair[:3]]. *)
Definition token_sell (self : Keeper) : string :=
  PyStr.take 3 (arguments_pair self).

(** [self.arguments.pair[3:]]. *)
Definition token_buy (self : Keeper) : string :=
  PyStr.drop 3 (arguments_pair self).

(** The loop over [self.assets]: the balance of the first asset whose
    altname is [token] and whose symbol is a key of [our_balances], and
    [Wad.from_number(0)] when the loop ends without one.  A reported number
    is held as the [Wad] that [Wad.from_number] makes of it. *)
Fixpoint our_available_balance_loop (symbols : list (string * string))
    (our_balances : gmap string Wad) (token : string) : Wad :=
  match symbols with
  | [] => 0
  | (symbol, altname) :: rest =>
      match String.eqb altname token, our_balances !! symbol with
      | true, Some reported => reported
      | _, _ => our_available_balance_loop rest our_balances token
      end
  end.

Definition our_available_balance (self : Keeper) (our_balances : gmap string Wad)
    (token : string) : Wad :=
  our_available_balance_loop (assets self) our_balances token.

Definition our_sell_orders (our_orders : list Order) : list Order :=
  List.filter (fun order => is_sell order) our_orders.

Definition our_buy_orders (our_orders : list Order) : list Order :=
  List.filter (fun order => negb (is_sell order)) our_orders.

Definition place_orders (new_orders : list NewOrder) : Tick unit :=
  for_each new_orders (fun new_order => emit (PlaceOrder (submission_lambda new_order))).

Section Pyexchange.
(** Two functions of libraries outside the repository: the pay-side amount
    an open order reports ([order.remaining_sell_amount]) and [round] on a
    [Wad] ([round(price, ndigits)]). *)
Variable remaining_sell_amount : Order -> Wad.
Variable round_wad : Wad -> Z -> Wad.

(** Modelled from the spec: [Bands.total_amount]
    ([market_maker_keeper/band.py] is not among the sources): the sum of the
    pay-side amounts of the given open orders. *)
Definition total_amount (open_orders : list Order) : Wad :=
  fold_right (fun order total => remaining_sell_amount order + total) 0 open_orders.

Definition synchronize_orders (self : Keeper) (bands : Bands Order)
    (order_book : OrderBook Order (gmap string Wad)) (target_price : Price)
  : Tick unit :=
  (* Cancel orders *)
  let* cancellable :=
    call_cancellable_orders bands (our_buy_orders (orders order_book))
                            (our_sell_orders (orders order_book)) target_price in
  if (0 <? length cancellable)%nat then
    emit (CancelOrders cancellable)
  else
  (* Do not place new orders if order book state is not confirmed *)
  if orders_being_placed order_book || orders_being_cancelled order_book then
    emit (LogDebug "Order book is in progress, not placing new orders")
  else
  (* balances still contain amounts locked by currently open orders,
     so these amounts are subtracted *)
  let buys := our_buy_orders (orders order_book) in
  let sells := our_sell_orders (orders order_book) in
  let our_buy_balance :=
    our_available_balance self (balances order_book) (token_buy self) - total_amount buys in
  let our_sell_balance :=
    our_available_balance self (balances order_book) (token_sell self) - total_amount sells in
  (* Place new orders *)
  let* generated := call_new_orders bands buys sells our_buy_balance our_sell_balance
                                    target_price in
  place_orders (fst generated).

(** *** Inside a scheduled task *)

(** The arguments of [kraken_api.place_order]. *)
Record PlaceRequest : Type := mkRequest {
  req_pair : string;
  req_is_sell : bool;
  req_price : Wad;
  req_amount : Wad
}.

Definition order_amount (new_order : NewOrder) : Wad :=
  if new_is_sell new_order then pay_amount new_order else buy_amount new_order.

Definition place_request (self : Keeper) (new_order : NewOrder) : PlaceRequest :=
  mkRequest (pair self) (new_is_sell new_order)
            (round_wad (new_price new_order) (pair_precision self))
            (order_amount new_order).

Definition place_order_function (self : Keeper) (api : PlaceRequest -> Exn + string)
    (new_order_to_be_placed : NewOrder) : prog PlaceRequest unit Order :=
  let price := round_wad (new_price new_order_to_be_placed) (pair_precision self) in
  let amount := order_amount new_order_to_be_placed in
  let request := place_request self new_order_to_be_placed in
  emit request ;;;
  match api request with
  | inl e => raise e
  | inr id =>
      ret (mkOrder id (pair self) (new_is_sell new_order_to_be_placed) price amount 0)
  end.

(** Calling the task with no argument, while the enclosing variable is as
    [frame] says. *)
Definition call_task (self : Keeper) (api : PlaceRequest -> Exn + string) (frame : Frame)
    (task : Task) : prog PlaceRequest unit Order :=
  match resolve_new_order task frame with
  | Some new_order => place_order_function self api new_order
  | None => raise NameError
  end.

(** Modelled from the spec: the worker pool behind
    [order_book_manager.place_order] ([market_maker_keeper/order_book.py] is
    not among the sources).  Each scheduled task runs as a unit of work of
    its own, at some later moment of the enclosing frame; a submission that
    fails is dropped and the others still run. *)
Definition execute (self : Keeper) (api : PlaceRequest -> Exn + string) (frame : Frame)
    (tasks : list Task) : list (Res PlaceRequest unit Order) :=
  map (fun task => run_tick (call_task self api frame task)) tasks.

Definition attempted {A : Type} (runs : list (Res PlaceRequest unit A)) : list PlaceRequest :=
  flat_map events runs.

End Pyexchange.

End Kraken.

(** ** The Uniswap keeper *)
Module Uniswap.

Definition ONE_ETH : Z := 1 * 10 ^ 18.

(** *** Numbers

    [place_liquidity] computes with Python's [float]: the operators below,
    with the two exceptions they can raise.  The keeper is written over this
    interface, and [binary64] is what CPython runs. *)
Class PyNumber (num : Type) : Type := {
  (** an [int] operand, converted *)
  of_int : Z -> num;
  (** the literals [0.02] and [0.5] *)
  lit_0_02 : num;
  lit_0_5 : num;
  mul : num -> num -> num;
  sub : num -> num -> num;
  (** [x / y] where it does not raise [ZeroDivisionError] *)
  div : num -> num -> num;
  is_zero : num -> bool;
  (** [abs(x)], [x < y], [x == y] *)
  absolute : num -> num;
  lt : num -> num -> bool;
  eq : num -> num -> bool;
  (** [int(x)]: truncation towards zero, or the exception *)
  to_int : num -> Exn + Z;
  lt_asym : forall x y, lt x y = true -> lt y x = false;
  eq_not_lt : forall x y, eq x y = true -> lt x y = false /\ lt y x = false
}.

(** [int(x)] for a binary64 value. *)
Definition float_to_int (x : float) : Exn + Z :=
  match Prim2SF x with
  | S754_zero _ => inr 0
  | S754_infinity _ => inl OverflowError
  | S754_nan => inl ValueError
  | S754_finite s m e =>
      let magnitude := if 0 <=? e then Z.pos m * 2 ^ e else Z.pos m / 2 ^ (- e) in
      inr (if s then - magnitude else magnitude)
  end.

(** [float(n)]: the binary64 value nearest to the integer [n]. *)
Definition float_of_int (n : Z) : float :=
  SF2Prim (binary_normalize prec emax n 0 false).

Lemma compare_cont_swap (m1 m2 : positive) :
  PosDef.Pos.compare_cont Eq m2 m1 = CompOpp (PosDef.Pos.compare_cont Eq m1 m2).
Proof. exact (eq_sym (Pos.compare_cont_antisym m1 m2 Eq)). Qed.

(** Comparing two binary64 values the other way round gives the opposite
    answer (and no answer when one of them is a NaN). *)
Lemma SFcompare_swap (a b : spec_float) :
  SFcompare b a = option_map CompOpp (SFcompare a b).
Proof.
  destruct a as [sa|sa| |sa ma ea], b as [sb|sb| |sb mb eb]; simpl;
    try reflexivity;
    try (destruct sa; reflexivity); try (destruct sb; reflexivity);
    try (destruct sa, sb; reflexivity).
  destruct sa, sb; simpl; try reflexivity;
    rewrite (Z.compare_antisym ea eb); destruct (ea ?= eb)%Z; simpl; try reflexivity;
    rewrite (compare_cont_swap ma mb); reflexivity.
Qed.

Lemma float_lt_asym (x y : float) :
  PrimFloat.ltb x y = true -> PrimFloat.ltb y x = false.
Proof.
  rewrite !ltb_spec. unfold SFltb.
  rewrite (SFcompare_swap (Prim2SF x) (Prim2SF y)).
  destruct (SFcompare (Prim2SF x) (Prim2SF y)) as [[ | | ]|]; simpl; congruence.
Qed.

Lemma float_eq_not_lt (x y : float) :
  PrimFloat.eqb x y = true ->
  PrimFloat.ltb x y = false /\ PrimFloat.ltb y x = false.
Proof.
  rewrite FloatAxioms.eqb_spec, !ltb_spec. unfold SFeqb, SFltb.
  rewrite (SFcompare_swap (Prim2SF x) (Prim2SF y)).
  destruct (SFcompare (Prim2SF x) (Prim2SF y)) as [[ | | ]|]; simpl;
    intros; split; congruence.
Qed.

(** What CPython computes: IEEE 754 binary64, round to nearest even. *)
#[global] Instance binary64 : PyNumber float := {|
  of_int := float_of_int;
  lit_0_02 := 0x1.47ae147ae147bp-6%float;
  lit_0_5 := 0.5%float;
  mul := PrimFloat.mul;
  sub := PrimFloat.sub;
  div := PrimFloat.div;
  is_zero := fun x => PrimFloat.eqb x 0%float;
  absolute := PrimFloat.abs;
  lt := PrimFloat.ltb;
  eq := PrimFloat.eqb;
  to_int := float_to_int;
  lt_asym := float_lt_asym;
  eq_not_lt := float_eq_not_lt
|}.

(** *** The exchange contract and the wrapper *)

(** The calls the tick makes on the chain. *)
Inductive Event : Type :=
| AddLiquidity (token : string) (max_eth min_liquidity : Z)
| RemoveLiquidity (token : string) (liquidity : Z)
| LogInfo (message : string)
| LogWarning (message : string).

(** The chain as the tick sees it: the keeper's liquidity-token balance
    ([exch_contract.functions.balanceOf(account).call()]), and what sending a
    transaction and waiting for its receipt leaves: the chain after it and
    [tx.status], or the exception of the call. *)
Record Exchange (Chain : Type) : Type := mkExchange {
  balanceOf : Chain -> Z;
  add_liquidity_tx : Chain -> Z -> Z -> Chain * (Exn + bool);
  remove_liquidity_tx : Chain -> Z -> Chain * (Exn + bool)
}.
Arguments balanceOf {Chain} _ _.
Arguments add_liquidity_tx {Chain} _ _ _ _.
Arguments remove_liquidity_tx {Chain} _ _ _.

Section Keeper.
Context {num : Type} {number : PyNumber num} {Chain : Type}.
Variable exchange : Exchange Chain.

(** The keeper's configuration: [--token-address] and
    [--percentage-difference]. *)
Record Keeper : Type := mkKeeper {
  token : string;
  percentage_difference : num
}.

(** What the tick reads before it decides: the feed's price, the pool's
    exchange rate, and the wallet's token and ETH balances in whole units
    (the values [.../ONE_ETH] evaluates to). *)
Record Reading : Type := mkReading {
  feed_price : num;
  uniswap_price : num;
  token_balance : num;
  eth_balance : num
}.

Definition Tick : Type -> Type := prog Event Chain.

(** [x / y]. *)
Definition truediv (x y : num) : Tick num :=
  if is_zero y then raise ZeroDivisionError else ret (div x y).

(** [min(a, b)]: the first argument unless the second is smaller. *)
Definition py_min (a b : num) : num := if lt b a then b else a.

(** [int(x)]. *)
Definition py_int (x : num) : Tick Z :=
  match to_int x with
  | inl e => raise e
  | inr n => ret n
  end.

Definition call_balanceOf : Tick Z :=
  let* chain := get in ret (balanceOf exchange chain).

(** [self.uniswap.add_liquidity(...)] and the wait for its receipt. *)
Definition call_add_liquidity (self : Keeper) (max_eth min_liquidity : Z) : Tick bool :=
  emit (AddLiquidity (token self) max_eth min_liquidity) ;;;
  let* chain := get in
  let sent := add_liquidity_tx exchange chain max_eth min_liquidity in
  put (fst sent) ;;;
  match snd sent with
  | inl e => raise e
  | inr status => ret status
  end.

(** [self.uniswap.remove_liquidity(...)] and the wait for its receipt. *)
Definition call_remove_liquidity (self : Keeper) (liquidity : Z) : Tick bool :=
  emit (RemoveLiquidity (token self) liquidity) ;;;
  let* chain := get in
  let sent := remove_liquidity_tx exchange chain liquidity in
  put (fst sent) ;;;
  match snd sent with
  | inl e => raise e
  | inr status => ret status
  end.

(** The value of [feed_price * percentage_difference / 100]. *)
Definition threshold (self : Keeper) (r : Reading) : num :=
  div (mul (feed_price r) (percentage_difference self)) (of_int 100).

(** [diff = feed_price * percentage_difference / 100]. *)
Definition diff_of (self : Keeper) (r : Reading) : Tick num :=
  truediv (mul (feed_price r) (percentage_difference self)) (of_int 100).

(** [abs(feed_price - uniswap_price)]. *)
Definition deviation (r : Reading) : num :=
  absolute (sub (feed_price r) (uniswap_price r)).

(** [min(liquidity_to_add, (token_balance*95/100)/ uniswap_price)]. *)
Definition eth_amount_to_add (liquidity_to_add : num) (r : Reading) : Tick num :=
  let* share := truediv (mul (token_balance r) (of_int 95)) (of_int 100) in
  let* calculated := truediv share (uniswap_price r) in
  ret (py_min liquidity_to_add calculated).

(** The branch [if add_liquidity:]. *)
Definition add_branch (self : Keeper) (r : Reading) : Tick unit :=
  let eth_balance_no_gas := sub (eth_balance r) lit_0_02 in
  let liquidity_to_add := eth_balance_no_gas in
  emit (LogInfo "Wallet liquidity") ;;;
  let* logged := truediv (token_balance r) (uniswap_price r) in
  emit (LogInfo "Calculated liquidity") ;;;
  let* amount := eth_amount_to_add liquidity_to_add r in
  let* current_liquidity_tokens := call_balanceOf in
  emit (LogInfo "Current liquidity tokens before adding") ;;;
  (if lt (of_int 0) liquidity_to_add && (current_liquidity_tokens =? 0) then
     emit (LogInfo "add liquidity") ;;;
     let* max_eth := py_int (mul amount (of_int ONE_ETH)) in
     let* min_liquidity := py_int (mul (mul lit_0_5 amount) (of_int ONE_ETH)) in
     let* status := call_add_liquidity self max_eth min_liquidity in
     if status then emit (LogInfo "Successfully added liquidity")
     else emit (LogWarning "Failed to add liquidity")
   else
     emit (LogInfo "Not enough tokens")) ;;;
  let* after := call_balanceOf in
  emit (LogInfo "Current liquidity tokens after adding").

(** The branch [if remove_liquidity:]. *)
Definition remove_branch (self : Keeper) : Tick unit :=
  let* liquidity_to_remove := call_balanceOf in
  emit (LogInfo "Current liquidity tokens before removing") ;;;
  (if 0 <? liquidity_to_remove then
     emit (LogInfo "Removing from Uniswap pool") ;;;
     let* status := call_remove_liquidity self liquidity_to_remove in
     if status then emit (LogInfo "Successfully removed liquidity")
     else emit (LogWarning "Failed to remove liquidity")
   else
     emit (LogInfo "No liquidity to remove")) ;;;
  let* after := call_balanceOf in
  emit (LogInfo "Current liquidity tokens after removing").

Definition place_liquidity (self : Keeper) (r : Reading) : Tick unit :=
  let* diff := diff_of self r in
  emit (LogInfo "Feed price, Uniswap price, Diff") ;;;
  let add_liquidity := lt (deviation r) diff in
  let remove_liquidity := lt diff (deviation r) in
  emit (LogInfo "ETH balance, DAI balance") ;;;
  (if add_liquidity then add_branch self r else ret tt) ;;;
  (if remove_liquidity then remove_branch self else ret tt).

(** The deposits and withdrawals among the events of a tick, with their
    arguments. *)
Definition deposits (evs : list Event) : list (string * Z * Z) :=
  flat_map (fun e => match e with AddLiquidity t a b => [(t, a, b)] | _ => [] end) evs.

Definition withdrawals (evs : list Event) : list (string * Z) :=
  flat_map (fun e => match e with RemoveLiquidity t n => [(t, n)] | _ => [] end) evs.

(** What a tick that starts on [chain] can send to the pool: nothing, one
    deposit, or one withdrawal, each with the conditions the code tested
    on the way and the arguments it computed. *)
Inductive tick_calls (self : Keeper) (r : Reading) (chain : Chain)
  : list (string * Z * Z) -> list (string * Z) -> Prop :=
| calls_nothing : tick_calls self r chain [] []
| calls_deposit (max_eth min_liquidity : Z) :
    lt (deviation r) (threshold self r) = true ->
    balanceOf exchange chain = 0 ->
    lt (of_int 0) (sub (eth_balance r) lit_0_02) = true ->
    is_zero (uniswap_price r) = false ->
    to_int (mul (py_min (sub (eth_balance r) lit_0_02)
                        (div (div (mul (token_balance r) (of_int 95)) (of_int 100))
                             (uniswap_price r)))
                (of_int ONE_ETH)) = inr max_eth ->
    to_int (mul (mul lit_0_5
                     (py_min (sub (eth_balance r) lit_0_02)
                             (div (div (mul (token_balance r) (of_int 95)) (of_int 100))
                                  (uniswap_price r))))
                (of_int ONE_ETH)) = inr min_liquidity ->
    tick_calls self r chain [(token self, max_eth, min_liquidity)] []
| calls_withdrawal :
    lt (threshold self r) (deviation r) = true ->
    0 < balanceOf exchange chain ->
    tick_calls self r chain [] [(token self, balanceOf exchange chain)].

End Keeper.

End Uniswap.

(** ** Sample inputs *)

Module Sample.

Definition wad (units : Z) : Wad := units * 10 ^ 18.

Definition target : Price := wad 200.

Definition two_orders : list NewOrder :=
  [mkNewOrder true (wad 201) (wad 1) (wad 201);
   mkNewOrder false (wad 199) (wad 199) (wad 1)].

(** A policy that finds every open order stale. *)
Definition cancel_all {Order : Type} : Bands Order :=
  mkBands (fun buys sells _ => buys ++ sells) (fun _ _ _ _ _ => (two_orders, 0)).

(** A policy that keeps every open order and asks for two new ones. *)
Definition keep_all {Order : Type} : Bands Order :=
  mkBands (fun _ _ _ => []) (fun _ _ _ _ _ => (two_orders, 0)).

Definition etoro_sell : EToro.Order :=
  EToro.mkOrder "7" "2020-01-01T00:00:00+00:00" "ethusd" true (wad 210) (wad 10).

Definition etoro_balances : list EToro.BalanceEntry :=
  [EToro.mkBalance "eth" (wad 5); EToro.mkBalance "usd" (wad 1000)].

Definition etoro_book (being_placed : bool) : OrderBook EToro.Order (list EToro.BalanceEntry) :=
  mkOrderBook [etoro_sell] etoro_balances being_placed false.

Definition kraken : Kraken.Keeper :=
  Kraken.mkKeeper "ETHUSD" [("XETH", "ETH"); ("ZUSD", "USD")] 1.

Definition kraken_sell : Kraken.Order :=
  Kraken.mkOrder "OABC" "ETHUSD" true (wad 210) (wad 10) 0.

Definition kraken_balances (eth usd : Z) : gmap string Wad :=
  <["XETH" := wad eth]> (<["ZUSD" := wad usd]> ∅).

Definition kraken_book (eth usd : Z) (being_placed : bool)
  : OrderBook Kraken.Order (gmap string Wad) :=
  mkOrderBook [kraken_sell] (kraken_balances eth usd) being_placed false.

(** The pay side of an open sell order read as its unfilled amount. *)
Definition unfilled (order : Kraken.Order) : Wad :=
  Kraken.amount order - Kraken.filled_amount order.

(** A pool whose chain state is the keeper's liquidity-token balance: a
    deposit mints as many tokens as wei were sent, a withdrawal burns the
    tokens it is given, and both transactions succeed. *)
Definition pool : Uniswap.Exchange Z :=
  Uniswap.mkExchange Z (fun tokens => tokens)
                     (fun tokens max_eth _ => (tokens + max_eth, inr true))
                     (fun tokens liquidity => (tokens - liquidity, inr true)).

(** The keeper with [--percentage-difference 1]. *)
Definition keeper64 : Uniswap.Keeper (num := float) :=
  Uniswap.mkKeeper "0x6B175474E89094C44Da98b954EedeAC495271d0F" 1%float.

(** Feed price 100 and pool price 102: the deviation 2 is above the
    threshold 1. *)
Definition far64 : Uniswap.Reading (num := float) :=
  Uniswap.mkReading 100%float 102%float 1000%float 3%float.

(** Feed price 100 and pool price 100.5: the deviation 0.5 is below the
    threshold 1. *)
Definition near64 : Uniswap.Reading (num := float) :=
  Uniswap.mkReading 100%float 100.5%float 1000%float 3%float.

End Sample.

(** ** Characters of a string *)

(** [s.isascii()]: every character is below 128. *)
Fixpoint is_ascii (s : string) : bool :=
  match s with
  | EmptyString => true
  | String c s' => (nat_of_ascii c <? 128)%nat && is_ascii s'
  end.

(** [c in s]. *)
Fixpoint has_char (c : ascii) (s : string) : bool :=
  match s with
  | EmptyString => false
  | String c' s' => Ascii.eqb c' c || has_char c s'
  end.

(** [s.replace(c, '')] for one character [c]. *)
Fixpoint remove_char (c : ascii) (s : string) : string :=
  match s with
  | EmptyString => EmptyString
  | String c' s' => if Ascii.eqb c' c then remove_char c s' else String c' (remove_char c s')
  end.


(** ** The calls of an order-book tick, in order *)

(** What the calls of one tick can be.  The policy is asked for the stale
    orders first, with the buy and sell orders of the snapshot.  Then the
    tick cancels them when there are some; or it only logs, when the order
    book is not confirmed; or it asks the policy for new orders and
    schedules, after that call, one task per generated order; or it ended
    in an exception before it asked for new orders. *)
Inductive tick_trace {Order : Type} (bands : Bands Order) (buys sells : list Order)
    (target_price : Price) (unconfirmed : bool) : list (Event Order) -> Prop :=
| trace_cancelled :
    cancellable_orders bands buys sells target_price <> [] ->
    tick_trace bands buys sells target_price unconfirmed
      [CancellableOrdersCall buys sells target_price;
       CancelOrders (cancellable_orders bands buys sells target_price)]
| trace_waiting (message : string) :
    cancellable_orders bands buys sells target_price = [] ->
    unconfirmed = true ->
    tick_trace bands buys sells target_price unconfirmed
      [CancellableOrdersCall buys sells target_price; LogDebug message]
| trace_placed (buy_balance sell_balance : Wad) :
    cancellable_orders bands buys sells target_price = [] ->
    unconfirmed = false ->
    tick_trace bands buys sells target_price unconfirmed
      (CancellableOrdersCall buys sells target_price
       :: NewOrdersCall buys sells buy_balance sell_balance target_price
       :: map (fun o => PlaceOrder (submission_lambda o))
              (fst (new_orders bands buys sells buy_balance sell_balance target_price)))
| trace_aborted :
    cancellable_orders bands buys sells target_price = [] ->
    unconfirmed = false ->
    tick_trace bands buys sells target_price unconfirmed
      [CancellableOrdersCall buys sells target_price].

(** ** The wallet of the pool keeper *)

(** An [int] as a binary64 value with no rounding yet, for [int_truediv]. *)
Definition int_as_operand (n : Z) : spec_float :=
  match n with
  | Z0 => S754_zero false
  | Zpos p => S754_finite false p 0
  | Zneg p => S754_finite true p 0
  end.

(** [a / b] for two [int]s, [b] not zero: the binary64 value nearest to the
    quotient. *)
Definition int_truediv (a b : Z) : float :=
  SF2Prim (SFdiv prec emax (int_as_operand a) (int_as_operand b)).

(** The reading of a tick from the wallet's balances in wei:
    [token_balance = balance_of(...).value/ONE_ETH] and
    [eth_balance = getBalance(...)/ONE_ETH]. *)
Definition wallet_reading (feed_price uniswap_price : float) (token_wei eth_wei : Z)
  : Uniswap.Reading (num := float) :=
  Uniswap.mkReading feed_price uniswap_price
                    (int_truediv token_wei Uniswap.ONE_ETH)
                    (int_truediv eth_wei Uniswap.ONE_ETH).

(** [min(eth_balance - 0.02, (token_balance*95/100)/uniswap_price)] in
    binary64, operation by operation; [0.02] is the double nearest to it. *)
Definition binary64_deposit_amount (eth_balance token_balance uniswap_price : float) : float :=
  let liquidity_to_add := (eth_balance - 0x1.47ae147ae147bp-6)%float in
  let calculated := (token_balance * 95 / 100 / uniswap_price)%float in
  if (calculated <? liquidity_to_add)%float then calculated else liquidity_to_add.

(** The deposit amount as the specification words it, over the rationals:
    min(available_base_balance - gas_reserve,
    0.95 * available_quote_balance / pool_price), with a gas reserve of
    0.02. *)
Definition specified_deposit_amount (base_balance quote_balance pool_price : Q) : Q :=
  Qmin (base_balance - (2 # 100)) ((95 # 100) * quote_balance / pool_price).

(** ** The Uniswap keeper's private key *)
Module KeyFile.

(** The exceptions [_extract_private_key] can end in: [TypeError] for [None]
    where a list or a path is needed, [IndexError] for an empty list,
    [ValueError] for a part that does not unpack into two, [OSError] for a
    file that cannot be read, and whatever the decryption raises. *)
Inductive Raised : Type :=
| TypeError
| IndexError
| ValueError
| OSError (path : string)
| DecryptError.

(** What the function asks of the outside, in order. *)
Inductive Asked : Type :=
| Opened (path : string)
| Prompted (prompt : string).

(** The outside: the files that can be read with their content, the
    password typed at a prompt, and [Account.decrypt(...).hex()]. *)
Record World : Type := mkWorld {
  read_file : string -> option string;
  getpass : string -> string;
  decrypt : string -> string -> Raised + string
}.

Definition newline : ascii := ascii_of_nat 10.

(** [var, val = p.split("=")]. *)
Definition unpack (parts : list string) : Raised + (string * string) :=
  match parts with
  | [var; val] => inr (var, val)
  | _ => inl ValueError
  end.

(** The loop [for p in key[0].split(","): ... parsed[var] = val]. *)
Fixpoint parse (parts : list string) (parsed : gmap string string)
  : Raised + gmap string string :=
  match parts with
  | [] => inr parsed
  | p :: rest =>
      match unpack (PyStr.split "=" p) with
      | inl e => inl e
      | inr (var, val) => parse rest (<[var := val]> parsed)
      end
  end.

(** [open(path).read()], for a path that may be [None]. *)
Definition open_and_read (world : World) (path : option string)
  : list Asked * (Raised + string) :=
  match path with
  | None => ([], inl TypeError)
  | Some p =>
      match read_file world p with
      | Some content => ([Opened p], inr content)
      | None => ([Opened p], inl (OSError p))
      end
  end.

(** [if pass_file:]: a string that is there and not empty. *)
Definition truthy (s : option string) : bool :=
  match s with
  | Some (String _ _) => true
  | _ => false
  end.

(** [_extract_private_key(key)], where [key] is [self.arguments.eth_key]: the
    list of the [--eth-key] values, or [None] when the option was not
    given. *)
Definition _extract_private_key (world : World) (key : option (list string))
  : list Asked * (Raised + string) :=
  match key with
  | None => ([], inl TypeError)
  | Some [] => ([], inl IndexError)
  | Some (first :: _) =>
      match parse (PyStr.split "," first) ∅ with
      | inl e => ([], inl e)
      | inr parsed =>
          let key_file := parsed !! "key_file" in
          let pass_file := parsed !! "pass_file" in
          match open_and_read world key_file with
          | (asked, inl e) => (asked, inl e)
          | (asked, inr read_key) =>
              if truthy pass_file then
                match open_and_read world pass_file with
                | (asked', inl e) => (asked ++ asked', inl e)
                | (asked', inr content) =>
                    (asked ++ asked', decrypt world read_key (remove_char newline content))
                end
              else
                let prompt :=
                  String.append "Password for "
                    (String.append (match key_file with Some p => p | None => "None" end)
                                   ": ") in
                (asked ++ [Prompted prompt], decrypt world read_key (getpass world prompt))
          end
      end
  end.

End KeyFile.

(** A world for the examples: the key file and the password file of the
    keeper's documentation, and a decryption that shows what it was given. *)
Definition sample_world : KeyFile.World :=
  KeyFile.mkWorld
    (fun path => if String.eqb path "aaa.json" then Some "{crypto}"
                 else if String.eqb path "aaa.pass"
                      then Some (String.append "secret" (String KeyFile.newline EmptyString))
                      else None)
    (fun prompt => "typed")
    (fun read_key read_pass => inr (String.append read_key (String.append "/" read_pass))).

(** The end of a tick that sent one transaction: the wrapper's exception
    when the call raised one, a normal end otherwise, whatever the status
    of the receipt. *)
Definition end_after (sent : Exn + bool) : Exn + unit :=
  match sent with
  | inl e => inl e
  | inr _ => inr tt
  end.

(** * Properties *)

(** ** Lists and strings *)

(** A list splits into the elements that fail a test and those that pass it. *)
Lemma filter_partition_perm {A : Type} (f : A -> bool) (l : list A) :
  Permutation (List.filter (fun x => negb (f x)) l ++ List.filter f l) l.
Proof.
  induction l as [|a l IH]; simpl.
  - constructor.
  - destruct (f a); simpl.
    + apply Permutation_sym, Permutation_cons_app, Permutation_sym, IH.
    + constructor. exact IH.
Qed.

Lemma filter_partition_length {A : Type} (f : A -> bool) (l : list A) :
  (length (List.filter (fun x => negb (f x)) l) + length (List.filter f l) = length l)%nat.
Proof.
  rewrite <- length_app. apply Permutation_length, filter_partition_perm.
Qed.

Lemma append_cons (c : ascii) (a b : string) :
  String.append (String c a) b = String c (String.append a b).
Proof. reflexivity. Qed.

Lemma append_empty (b : string) : String.append EmptyString b = b.
Proof. reflexivity. Qed.

Lemma take_drop (n : nat) (s : string) :
  String.append (PyStr.take n s) (PyStr.drop n s) = s.
Proof.
  revert s. induction n as [|n IH]; intros [|c s]; cbn [PyStr.take PyStr.drop];
    rewrite ?append_cons, ?append_empty; try reflexivity.
  now rewrite IH.
Qed.

Lemma take_length (n : nat) (s : string) :
  String.length (PyStr.take n s) = Nat.min n (String.length s).
Proof.
  revert s. induction n as [|n IH]; intros [|c s]; simpl; try reflexivity.
  now rewrite IH.
Qed.

Lemma take_app_exact (base rest : string) :
  PyStr.take (String.length base) (String.append base rest) = base.
Proof.
  induction base as [|c base IH]; rewrite ?append_cons, ?append_empty; simpl.
  - destruct rest; reflexivity.
  - now rewrite IH.
Qed.

Lemma drop_app_exact (base rest : string) :
  PyStr.drop (String.length base) (String.append base rest) = rest.
Proof.
  induction base as [|c base IH]; rewrite ?append_cons, ?append_empty; simpl.
  - reflexivity.
  - exact IH.
Qed.

Lemma append_length (a b : string) :
  String.length (String.append a b) = (String.length a + String.length b)%nat.
Proof.
  induction a as [|c a IH]; rewrite ?append_cons, ?append_empty; simpl;
    [reflexivity | now rewrite IH].
Qed.

Lemma split_not_empty (sep : ascii) (s : string) : PyStr.split sep s <> [].
Proof.
  induction s as [|c s IH]; simpl; [discriminate|].
  destruct (Ascii.eqb c sep); [discriminate|].
  destruct (PyStr.split sep s); discriminate.
Qed.

(** ** The loop of [place_orders] *)

(** A loop whose body makes one call per item makes these calls in the
    order of the items and ends normally. *)
Lemma for_each_emit {E S A : Type} (f : A -> E) (l : list A) (s : S) :
  for_each l (fun x => emit (f x)) s = mkRes (map f l) s (inr tt).
Proof.
  induction l as [|x l IH]; [reflexivity|].
  cbn [for_each]. unfold bind. cbn [emit outcome events final].
  rewrite IH. reflexivity.
Qed.

Lemma flat_map_map_nil {A B C : Type} (f : B -> list C) (g : A -> B) (l : list A) :
  (forall x, f (g x) = []) -> flat_map f (map g l) = [].
Proof.
  intros Hnil. induction l as [|x l IH]; simpl; [reflexivity|].
  now rewrite Hnil, IH.
Qed.

Section PlaceLoop.
Context {Order : Type}.


End PlaceLoop.

(** ** Reasoning about a tick, call by call *)

Section WP.
Context {E S : Type}.

Lemma wp_bind {A B : Type} (m : prog E S A) (k : A -> prog E S B) (s : S)
    (Q : list E -> S -> Exn + B -> Prop) :
  wp m s (fun ev s' o =>
            match o with
            | inl e => Q ev s' (inl e)
            | inr a => wp (k a) s' (fun ev' s'' o' => Q (ev ++ ev') s'' o')
            end) ->
  wp (bind m k) s Q.
Proof.
  unfold wp, bind. destruct (m s) as [ev s' [e|a]]; cbn [events final outcome]; auto.
Qed.

Lemma wp_ret {A : Type} (a : A) (s : S) (Q : list E -> S -> Exn + A -> Prop) :
  Q [] s (inr a) -> wp (ret a) s Q.
Proof. exact (fun H => H). Qed.

Lemma wp_raise {A : Type} (e : Exn) (s : S) (Q : list E -> S -> Exn + A -> Prop) :
  Q [] s (inl e) -> wp (raise e) s Q.
Proof. exact (fun H => H). Qed.

Lemma wp_emit (e : E) (s : S) (Q : list E -> S -> Exn + unit -> Prop) :
  Q [e] s (inr tt) -> wp (emit e) s Q.
Proof. exact (fun H => H). Qed.

Lemma wp_get (s : S) (Q : list E -> S -> Exn + S -> Prop) :
  Q [] s (inr s) -> wp get s Q.
Proof. exact (fun H => H). Qed.

Lemma wp_put (s' s : S) (Q : list E -> S -> Exn + unit -> Prop) :
  Q [] s' (inr tt) -> wp (put s') s Q.
Proof. exact (fun H => H). Qed.

(** A loop of single calls, as [for_each_emit] describes it. *)
Lemma wp_for_each_emit {A : Type} (f : A -> E) (l : list A) (s : S)
    (Q : list E -> S -> Exn + unit -> Prop) :
  Q (map f l) s (inr tt) -> wp (for_each l (fun x => emit (f x))) s Q.
Proof. unfold wp. rewrite for_each_emit. exact (fun H => H). Qed.

(** The whole result of a run, from its three parts. *)
Lemma wp_result {A : Type} (m : prog E S A) (s : S) (res : Res E S A) :
  wp m s (fun ev s' o => mkRes ev s' o = res) -> m s = res.
Proof. unfold wp. destruct (m s). exact (fun H => H). Qed.

End WP.

(** One step through the program at the head of a [wp] goal. *)
Ltac wp_step :=
  lazymatch goal with
  | |- wp (bind _ _) _ _ => apply wp_bind
  | |- wp (ret _) _ _ => apply wp_ret
  | |- wp (raise _) _ _ => apply wp_raise
  | |- wp (emit _) _ _ => apply wp_emit
  | |- wp get _ _ => apply wp_get
  | |- wp (put _) _ _ => apply wp_put
  | |- wp (for_each _ (fun x => emit _)) _ _ => apply wp_for_each_emit
  | |- wp (first_item (_ :: _)) _ _ => apply wp_ret
  | |- wp (second_item (_ :: _ :: _)) _ _ => apply wp_ret
  | |- wp (let _ := _ in _) _ _ => cbv zeta
  end; cbv beta iota.

(** ** One tick of the eToro keeper, case by case *)

Section EToroTick.
Variable arguments_pair : string.
Variable bands : Bands EToro.Order.
Variable order_book : OrderBook EToro.Order (list EToro.BalanceEntry).
Variable target_price : Price.

Local Abbreviation buys := (EToro.our_buy_orders (orders order_book)).
Local Abbreviation sells := (EToro.our_sell_orders (orders order_book)).
Local Abbreviation cancellable := (cancellable_orders bands buys sells target_price).
Local Abbreviation tick :=
  (run_tick (EToro.synchronize_orders arguments_pair bands order_book target_price)).

(** Stale orders: they are cancelled and the tick is over. *)
Lemma etoro_tick_cancels :
  cancellable <> [] ->
  tick = mkRes [CancellableOrdersCall buys sells target_price; CancelOrders cancellable]
               tt (inr tt).
Proof.
  intros Hc. unfold run_tick; apply wp_result.
  unfold EToro.synchronize_orders, call_cancellable_orders.
  repeat wp_step.
  destruct cancellable as [|o c]; [congruence|].
  cbn [length Nat.ltb Nat.leb]. wp_step. reflexivity.
Qed.

(** Nothing stale, but the order book is not confirmed: the tick only logs. *)
Lemma etoro_tick_waits :
  cancellable = [] ->
  orders_being_placed order_book || orders_being_cancelled order_book = true ->
  tick = mkRes [CancellableOrdersCall buys sells target_price;
                LogDebug "Order book is in progress, not placing new orders"]
               tt (inr tt).
Proof.
  intros Hc Hflag. unfold run_tick; apply wp_result.
  unfold EToro.synchronize_orders, call_cancellable_orders.
  repeat wp_step. rewrite Hc, Hflag. cbn [length Nat.ltb Nat.leb].
  wp_step. reflexivity.
Qed.

(** Nothing stale, a confirmed order book and both tokens listed among the
    balances: the policy is asked for new orders with the two listed
    balances, and each generated order is scheduled. *)
Lemma etoro_tick_places (base quote : string) (rest : list string)
    (buy_entry sell_entry : EToro.BalanceEntry) (more_buy more_sell : list EToro.BalanceEntry) :
  cancellable = [] ->
  orders_being_placed order_book || orders_being_cancelled order_book = false ->
  PyStr.split "_" arguments_pair = base :: quote :: rest ->
  List.filter (fun x => String.eqb (EToro.currency x) (PyStr.lower quote)) (balances order_book)
    = buy_entry :: more_buy ->
  List.filter (fun x => String.eqb (EToro.currency x) (PyStr.lower base)) (balances order_book)
    = sell_entry :: more_sell ->
  tick = mkRes (CancellableOrdersCall buys sells target_price
                :: NewOrdersCall buys sells (EToro.balance buy_entry) (EToro.balance sell_entry)
                                 target_price
                :: map (fun o => PlaceOrder (submission_lambda o))
                       (fst (new_orders bands buys sells (EToro.balance buy_entry)
                                        (EToro.balance sell_entry) target_price)))
               tt (inr tt).
Proof.
  intros Hc Hflag Hsplit Hbuy Hsell. unfold run_tick; apply wp_result.
  unfold EToro.synchronize_orders, call_cancellable_orders.
  repeat wp_step. rewrite Hc, Hflag. cbn [length Nat.ltb Nat.leb]. wp_step.
  unfold EToro.token_buy. rewrite Hsplit. repeat wp_step.
  unfold EToro.our_available_balance at 1. rewrite Hbuy. repeat wp_step.
  unfold EToro.token_sell. rewrite Hsplit. repeat wp_step.
  unfold EToro.our_available_balance. rewrite Hsell. repeat wp_step.
  unfold call_new_orders, EToro.place_orders. repeat wp_step.
  reflexivity.
Qed.

End EToroTick.

(** ** One tick of the Kraken keeper, case by case *)

Section KrakenTick.
Variable remaining_sell_amount : Kraken.Order -> Wad.
Variable self : Kraken.Keeper.
Variable bands : Bands Kraken.Order.
Variable order_book : OrderBook Kraken.Order (gmap string Wad).
Variable target_price : Price.

Local Abbreviation buys := (Kraken.our_buy_orders (orders order_book)).
Local Abbreviation sells := (Kraken.our_sell_orders (orders order_book)).
Local Abbreviation cancellable := (cancellable_orders bands buys sells target_price).
Local Abbreviation tick :=
  (run_tick (Kraken.synchronize_orders remaining_sell_amount self bands order_book
                                       target_price)).
Local Abbreviation buy_balance :=
  (Kraken.our_available_balance self (balances order_book) (Kraken.token_buy self)
   - Kraken.total_amount remaining_sell_amount buys).
Local Abbreviation sell_balance :=
  (Kraken.our_available_balance self (balances order_book) (Kraken.token_sell self)
   - Kraken.total_amount remaining_sell_amount sells).

(** Stale orders: they are cancelled and the tick is over. *)
Lemma kraken_tick_cancels :
  cancellable <> [] ->
  tick = mkRes [CancellableOrdersCall buys sells target_price; CancelOrders cancellable]
               tt (inr tt).
Proof.
  intros Hc. unfold run_tick; apply wp_result.
  unfold Kraken.synchronize_orders, call_cancellable_orders.
  repeat wp_step.
  destruct cancellable as [|o c]; [congruence|].
  cbn [length Nat.ltb Nat.leb]. wp_step. reflexivity.
Qed.

(** Nothing stale, but the order book is not confirmed: the tick only logs. *)
Lemma kraken_tick_waits :
  cancellable = [] ->
  orders_being_placed order_book || orders_being_cancelled order_book = true ->
  tick = mkRes [CancellableOrdersCall buys sells target_price;
                LogDebug "Order book is in progress, not placing new orders"]
               tt (inr tt).
Proof.
  intros Hc Hflag. unfold run_tick; apply wp_result.
  unfold Kraken.synchronize_orders, call_cancellable_orders.
  repeat wp_step. rewrite Hc, Hflag. cbn [length Nat.ltb Nat.leb].
  wp_step. reflexivity.
Qed.

(** Nothing stale and a confirmed order book: the policy is asked for new
    orders with the reported balances less the amounts the open orders
    lock, and each generated order is scheduled. *)
Lemma kraken_tick_places :
  cancellable = [] ->
  orders_being_placed order_book || orders_being_cancelled order_book = false ->
  tick = mkRes (CancellableOrdersCall buys sells target_price
                :: NewOrdersCall buys sells buy_balance sell_balance target_price
                :: map (fun o => PlaceOrder (submission_lambda o))
                       (fst (new_orders bands buys sells buy_balance sell_balance
                                        target_price)))
               tt (inr tt).
Proof.
  intros Hc Hflag. unfold run_tick; apply wp_result.
  unfold Kraken.synchronize_orders, call_cancellable_orders.
  repeat wp_step. rewrite Hc, Hflag. cbn [length Nat.ltb Nat.leb]. wp_step.
  unfold call_new_orders, Kraken.place_orders. repeat wp_step.
  reflexivity.
Qed.

End KrakenTick.

(** ** Cancellation comes before placement *)

(** C1.  In a tick of either order-book keeper, when the policy's
    [cancellable_orders] result is not empty, the keeper hands exactly that
    result to [cancel_orders], once, schedules no placement, does not ask the
    policy for new orders, and the tick ends normally. *)
Theorem cancellation_precedes_placement :
  (forall arguments_pair bands order_book target_price,
     cancellable_orders bands (EToro.our_buy_orders (orders order_book))
                        (EToro.our_sell_orders (orders order_book)) target_price <> [] ->
     cancellations (events (run_tick (EToro.synchronize_orders arguments_pair bands
                                        order_book target_price)))
       = [cancellable_orders bands (EToro.our_buy_orders (orders order_book))
                             (EToro.our_sell_orders (orders order_book)) target_price]
     /\ scheduled_tasks (events (run_tick (EToro.synchronize_orders arguments_pair bands
                                             order_book target_price))) = []
     /\ balances_passed (events (run_tick (EToro.synchronize_orders arguments_pair bands
                                             order_book target_price))) = []
     /\ outcome (run_tick (EToro.synchronize_orders arguments_pair bands
                             order_book target_price)) = inr tt)
  /\
  (forall remaining_sell_amount self bands order_book target_price,
     cancellable_orders bands (Kraken.our_buy_orders (orders order_book))
                        (Kraken.our_sell_orders (orders order_book)) target_price <> [] ->
     cancellations (events (run_tick (Kraken.synchronize_orders remaining_sell_amount self
                                        bands order_book target_price)))
       = [cancellable_orders bands (Kraken.our_buy_orders (orders order_book))
                             (Kraken.our_sell_orders (orders order_book)) target_price]
     /\ scheduled_tasks (events (run_tick (Kraken.synchronize_orders remaining_sell_amount
                                             self bands order_book target_price))) = []
     /\ balances_passed (events (run_tick (Kraken.synchronize_orders remaining_sell_amount
                                             self bands order_book target_price))) = []
     /\ outcome (run_tick (Kraken.synchronize_orders remaining_sell_amount self bands
                             order_book target_price)) = inr tt).
Proof.
  split.
  - intros pair_arg bands book target Hc.
    rewrite (etoro_tick_cancels pair_arg bands book target Hc).
    repeat split; reflexivity.
  - intros rsa self bands book target Hc.
    rewrite (kraken_tick_cancels rsa self bands book target Hc).
    repeat split; reflexivity.
Qed.

(** On the sample books, with the policy that finds the open order stale. *)
Lemma cancellation_precedes_placement_witness :
  (cancellable_orders Sample.cancel_all
      (EToro.our_buy_orders (orders (Sample.etoro_book false)))
      (EToro.our_sell_orders (orders (Sample.etoro_book false))) Sample.target <> []
   /\ cancellations (events (run_tick (EToro.synchronize_orders "ETH_USD" Sample.cancel_all
                                         (Sample.etoro_book false) Sample.target)))
        = [[Sample.etoro_sell]]
   /\ scheduled_tasks (events (run_tick (EToro.synchronize_orders "ETH_USD" Sample.cancel_all
                                           (Sample.etoro_book false) Sample.target))) = [])
  /\
  (cancellable_orders Sample.cancel_all
      (Kraken.our_buy_orders (orders (Sample.kraken_book 20 1000 false)))
      (Kraken.our_sell_orders (orders (Sample.kraken_book 20 1000 false))) Sample.target <> []
   /\ cancellations (events (run_tick (Kraken.synchronize_orders Sample.unfilled Sample.kraken
                                         Sample.cancel_all (Sample.kraken_book 20 1000 false)
                                         Sample.target)))
        = [[Sample.kraken_sell]]
   /\ scheduled_tasks (events (run_tick (Kraken.synchronize_orders Sample.unfilled
                                           Sample.kraken Sample.cancel_all
                                           (Sample.kraken_book 20 1000 false)
                                           Sample.target))) = []).
Proof.
  split.
  - assert (Hc : cancellable_orders Sample.cancel_all
                   (EToro.our_buy_orders (orders (Sample.etoro_book false)))
                   (EToro.our_sell_orders (orders (Sample.etoro_book false))) Sample.target
                 <> []) by (simpl; discriminate).
    split; [exact Hc|].
    destruct (proj1 cancellation_precedes_placement "ETH_USD" Sample.cancel_all
                    (Sample.etoro_book false) Sample.target Hc) as (Hcancel & Hplace & _).
    split; [exact Hcancel | exact Hplace].
  - assert (Hc : cancellable_orders Sample.cancel_all
                   (Kraken.our_buy_orders (orders (Sample.kraken_book 20 1000 false)))
                   (Kraken.our_sell_orders (orders (Sample.kraken_book 20 1000 false)))
                   Sample.target <> []) by (simpl; discriminate).
    split; [exact Hc|].
    destruct (proj2 cancellation_precedes_placement Sample.unfilled Sample.kraken
                    Sample.cancel_all (Sample.kraken_book 20 1000 false) Sample.target Hc)
      as (Hcancel & Hplace & _).
    split; [exact Hcancel | exact Hplace].
Defined.

(** ** The gate on an unconfirmed order book *)

(** C2, as stated, fails: with [orders_being_placed] set and a policy that
    finds the open sell order stale, the eToro tick still hands that order
    to [cancel_orders]. *)
Lemma unconfirmed_book_still_cancels :
  orders_being_placed (Sample.etoro_book true) = true
  /\ cancellations (events (run_tick (EToro.synchronize_orders "ETH_USD" Sample.cancel_all
                                        (Sample.etoro_book true) Sample.target)))
       = [[Sample.etoro_sell]].
Proof. split; reflexivity. Qed.

(** C2, amended.  In a tick of either order-book keeper, when
    [orders_being_placed] or [orders_being_cancelled] is set, no placement
    is scheduled and the policy is not asked for new orders, whatever the
    policy answers; the stale orders are still cancelled: [cancel_orders]
    is called with the policy's [cancellable_orders] result when that
    result is not empty, and not at all when it is empty. *)
Theorem unconfirmed_book_places_nothing :
  (forall arguments_pair bands order_book target_price,
     orders_being_placed order_book || orders_being_cancelled order_book = true ->
     scheduled_tasks (events (run_tick (EToro.synchronize_orders arguments_pair bands
                                          order_book target_price))) = []
     /\ balances_passed (events (run_tick (EToro.synchronize_orders arguments_pair bands
                                             order_book target_price))) = []
     /\ cancellations (events (run_tick (EToro.synchronize_orders arguments_pair bands
                                           order_book target_price)))
        = match cancellable_orders bands (EToro.our_buy_orders (orders order_book))
                                   (EToro.our_sell_orders (orders order_book)) target_price
          with
          | [] => []
          | stale => [stale]
          end)
  /\
  (forall remaining_sell_amount self bands order_book target_price,
     orders_being_placed order_book || orders_being_cancelled order_book = true ->
     scheduled_tasks (events (run_tick (Kraken.synchronize_orders remaining_sell_amount self
                                          bands order_book target_price))) = []
     /\ balances_passed (events (run_tick (Kraken.synchronize_orders remaining_sell_amount
                                             self bands order_book target_price))) = []
     /\ cancellations (events (run_tick (Kraken.synchronize_orders remaining_sell_amount self
                                           bands order_book target_price)))
        = match cancellable_orders bands (Kraken.our_buy_orders (orders order_book))
                                   (Kraken.our_sell_orders (orders order_book)) target_price
          with
          | [] => []
          | stale => [stale]
          end).
Proof.
  split.
  - intros pair_arg bands book target Hflag.
    destruct (cancellable_orders bands (EToro.our_buy_orders (orders book))
                (EToro.our_sell_orders (orders book)) target) as [|o stale] eqn:Hc.
    + rewrite (etoro_tick_waits pair_arg bands book target Hc Hflag).
      repeat split; reflexivity.
    + assert (Hne : cancellable_orders bands (EToro.our_buy_orders (orders book))
                      (EToro.our_sell_orders (orders book)) target <> [])
        by (rewrite Hc; discriminate).
      rewrite (etoro_tick_cancels pair_arg bands book target Hne), Hc.
      repeat split; reflexivity.
  - intros rsa self bands book target Hflag.
    destruct (cancellable_orders bands (Kraken.our_buy_orders (orders book))
                (Kraken.our_sell_orders (orders book)) target) as [|o stale] eqn:Hc.
    + rewrite (kraken_tick_waits rsa self bands book target Hc Hflag).
      repeat split; reflexivity.
    + assert (Hne : cancellable_orders bands (Kraken.our_buy_orders (orders book))
                      (Kraken.our_sell_orders (orders book)) target <> [])
        by (rewrite Hc; discriminate).
      rewrite (kraken_tick_cancels rsa self bands book target Hne), Hc.
      repeat split; reflexivity.
Qed.

(** On the sample books with a placement pending, and a policy that asks
    for two new orders. *)
Lemma unconfirmed_book_places_nothing_witness :
  (orders_being_placed (Sample.etoro_book true)
     || orders_being_cancelled (Sample.etoro_book true) = true
   /\ scheduled_tasks (events (run_tick (EToro.synchronize_orders "ETH_USD" Sample.keep_all
                                           (Sample.etoro_book true) Sample.target))) = [])
  /\
  (orders_being_placed (Sample.kraken_book 20 1000 true)
     || orders_being_cancelled (Sample.kraken_book 20 1000 true) = true
   /\ scheduled_tasks (events (run_tick (Kraken.synchronize_orders Sample.unfilled
                                           Sample.kraken Sample.keep_all
                                           (Sample.kraken_book 20 1000 true)
                                           Sample.target))) = []).
Proof.
  split.
  - split; [reflexivity|].
    exact (proj1 (proj1 unconfirmed_book_places_nothing "ETH_USD" Sample.keep_all
                        (Sample.etoro_book true) Sample.target eq_refl)).
  - split; [reflexivity|].
    exact (proj1 (proj2 unconfirmed_book_places_nothing Sample.unfilled Sample.kraken
                        Sample.keep_all (Sample.kraken_book 20 1000 true) Sample.target
                        eq_refl)).
Defined.

(** ** The balances handed to the policy *)

(** C3, as stated, fails: on Kraken, with 5 ETH reported and an open sell
    order that still locks 10 ETH, the sell balance handed to [new_orders]
    is -5 ETH, where max(raw - locked, 0) is 0. *)
Lemma kraken_balance_below_zero :
  Kraken.our_available_balance Sample.kraken (balances (Sample.kraken_book 5 100 false))
                               (Kraken.token_sell Sample.kraken) = Sample.wad 5
  /\ Kraken.total_amount Sample.unfilled
       (Kraken.our_sell_orders (orders (Sample.kraken_book 5 100 false))) = Sample.wad 10
  /\ balances_passed (events (run_tick (Kraken.synchronize_orders Sample.unfilled Sample.kraken
                                          Sample.keep_all (Sample.kraken_book 5 100 false)
                                          Sample.target)))
       = [(Sample.wad 100, Sample.wad (-5))]
  /\ Sample.wad (-5) <> Z.max (Sample.wad 5 - Sample.wad 10) 0.
Proof. repeat split; try (vm_compute; reflexivity). vm_compute. discriminate. Qed.

(** C3, amended.  When a Kraken tick reaches the policy (nothing stale, order
    book confirmed), the buy and sell balances handed to [new_orders] are
    the reported balance of the token (zero when it is not reported) less
    the pay-side amounts of the open orders of that side, with no clamping
    at zero: the difference is max(raw - locked, 0) when the locked amount
    does not exceed the reported one, and negative otherwise.  When an
    eToro tick reaches the policy and both tokens are listed, the balances
    handed over are the listed ones, unchanged. *)
Theorem balances_handed_to_policy :
  (forall remaining_sell_amount self bands order_book target_price raw_buy raw_sell
          locked_buy locked_sell,
     raw_buy = Kraken.our_available_balance self (balances order_book) (Kraken.token_buy self) ->
     raw_sell = Kraken.our_available_balance self (balances order_book)
                                             (Kraken.token_sell self) ->
     locked_buy = Kraken.total_amount remaining_sell_amount
                                      (Kraken.our_buy_orders (orders order_book)) ->
     locked_sell = Kraken.total_amount remaining_sell_amount
                                       (Kraken.our_sell_orders (orders order_book)) ->
     cancellable_orders bands (Kraken.our_buy_orders (orders order_book))
                        (Kraken.our_sell_orders (orders order_book)) target_price = [] ->
     orders_being_placed order_book || orders_being_cancelled order_book = false ->
     balances_passed (events (run_tick (Kraken.synchronize_orders remaining_sell_amount self
                                          bands order_book target_price)))
       = [(raw_buy - locked_buy, raw_sell - locked_sell)]
     /\ (locked_buy <= raw_buy -> raw_buy - locked_buy = Z.max (raw_buy - locked_buy) 0)
     /\ (locked_sell <= raw_sell -> raw_sell - locked_sell = Z.max (raw_sell - locked_sell) 0)
     /\ (raw_buy < locked_buy -> raw_buy - locked_buy < 0)
     /\ (raw_sell < locked_sell -> raw_sell - locked_sell < 0))
  /\
  (forall arguments_pair bands order_book target_price base quote rest
          buy_entry more_buy sell_entry more_sell,
     cancellable_orders bands (EToro.our_buy_orders (orders order_book))
                        (EToro.our_sell_orders (orders order_book)) target_price = [] ->
     orders_being_placed order_book || orders_being_cancelled order_book = false ->
     PyStr.split "_" arguments_pair = base :: quote :: rest ->
     List.filter (fun x => String.eqb (EToro.currency x) (PyStr.lower quote))
                 (balances order_book) = buy_entry :: more_buy ->
     List.filter (fun x => String.eqb (EToro.currency x) (PyStr.lower base))
                 (balances order_book) = sell_entry :: more_sell ->
     balances_passed (events (run_tick (EToro.synchronize_orders arguments_pair bands
                                          order_book target_price)))
       = [(EToro.balance buy_entry, EToro.balance sell_entry)]).
Proof.
  split.
  - intros rsa self bands book target raw_buy raw_sell locked_buy locked_sell
           -> -> -> -> Hc Hflag.
    rewrite (kraken_tick_places rsa self bands book target Hc Hflag).
    cbn [events balances_passed flat_map app].
    rewrite flat_map_map_nil by reflexivity.
    repeat split; lia.
  - intros pair_arg bands book target base quote rest eb mb es ms Hc Hflag Hsplit Hb Hs.
    rewrite (etoro_tick_places pair_arg bands book target base quote rest eb es mb ms
                               Hc Hflag Hsplit Hb Hs).
    cbn [events balances_passed flat_map app].
    rewrite flat_map_map_nil by reflexivity. reflexivity.
Qed.

(** On the sample books: 20 ETH reported on Kraken with 10 ETH locked by the
    open sell order, and the two listed balances on eToro. *)
Lemma balances_handed_to_policy_witness :
  balances_passed (events (run_tick (Kraken.synchronize_orders Sample.unfilled Sample.kraken
                                       Sample.keep_all (Sample.kraken_book 20 1000 false)
                                       Sample.target)))
    = [(Sample.wad 1000 - 0, Sample.wad 20 - Sample.wad 10)]
  /\
  balances_passed (events (run_tick (EToro.synchronize_orders "ETH_USD" Sample.keep_all
                                       (Sample.etoro_book false) Sample.target)))
    = [(Sample.wad 1000, Sample.wad 5)].
Proof.
  split.
  - refine (proj1 (proj1 balances_handed_to_policy Sample.unfilled Sample.kraken
                         Sample.keep_all (Sample.kraken_book 20 1000 false) Sample.target
                         (Sample.wad 1000) (Sample.wad 20) 0 (Sample.wad 10)
                         _ _ _ _ _ _)); vm_compute; reflexivity.
  - refine (proj2 balances_handed_to_policy "ETH_USD" Sample.keep_all
                  (Sample.etoro_book false) Sample.target "ETH" "USD" []
                  (EToro.mkBalance "usd" (Sample.wad 1000)) []
                  (EToro.mkBalance "eth" (Sample.wad 5)) [] _ _ _ _ _); reflexivity.
Defined.

(** ** A currency the venue does not report *)

(** On Kraken a token with no reported balance has balance zero: when no
    asset with that altname has its symbol among the reported balances, the
    loop over the assets ends and the keeper returns [Wad.from_number(0)]. *)
Lemma kraken_unreported_currency_is_zero (self : Kraken.Keeper)
    (our_balances : gmap string Wad) (token : string) :
  (forall symbol altname,
     In (symbol, altname) (Kraken.assets self) -> altname = token ->
     our_balances !! symbol = None) ->
  Kraken.our_available_balance self our_balances token = 0.
Proof.
  unfold Kraken.our_available_balance.
  induction (Kraken.assets self) as [|[symbol altname] rest IH]; intros Habsent;
    [reflexivity|].
  cbn [Kraken.our_available_balance_loop].
  destruct (String.eqb altname token) eqn:Heq.
  - apply String.eqb_eq in Heq.
    rewrite (Habsent symbol altname (or_introl eq_refl) Heq).
    apply IH. intros s a Hin. apply Habsent. now right.
  - apply IH. intros s a Hin. apply Habsent. now right.
Qed.

(** On eToro the lookup takes item [0] of the entries whose currency is the
    token: with no such entry it raises [IndexError]. *)
Lemma etoro_unlisted_currency_raises (our_balances : list EToro.BalanceEntry)
    (token : string) :
  (forall entry, In entry our_balances -> EToro.currency entry <> token) ->
  run_tick (EToro.our_available_balance our_balances token) = mkRes [] tt (inl IndexError).
Proof.
  intros Habsent. unfold run_tick, EToro.our_available_balance.
  assert (Hnone : List.filter (fun x => String.eqb (EToro.currency x) token) our_balances = []).
  { induction our_balances as [|e l IH]; [reflexivity|]. simpl.
    destruct (String.eqb (EToro.currency e) token) eqn:Heq.
    - apply String.eqb_eq in Heq. exfalso. exact (Habsent e (or_introl eq_refl) Heq).
    - apply IH. intros x Hin. apply Habsent. now right. }
  rewrite Hnone. reflexivity.
Qed.

(** C6 fails on eToro.  With only an ETH balance reported, the lookup of the
    USD balance raises [IndexError], and a tick that reaches the placement
    step on the pair ETH_USD ends in that exception before it asks the
    policy for new orders: nothing is scheduled. *)
Theorem etoro_unlisted_currency_aborts_tick :
  run_tick (EToro.our_available_balance [EToro.mkBalance "eth" (Sample.wad 5)] "usd")
    = mkRes [] tt (inl IndexError)
  /\ outcome (run_tick (EToro.synchronize_orders "ETH_USD" Sample.keep_all
                          (mkOrderBook [] [EToro.mkBalance "eth" (Sample.wad 5)] false false)
                          Sample.target))
     = inl IndexError
  /\ scheduled_tasks (events (run_tick (EToro.synchronize_orders "ETH_USD" Sample.keep_all
                          (mkOrderBook [] [EToro.mkBalance "eth" (Sample.wad 5)] false false)
                          Sample.target)))
     = [].
Proof. repeat split; reflexivity. Qed.

(** ** Buy and sell orders *)

(** C9.  For every list of open orders, in either order-book keeper,
    [our_buy_orders] followed by [our_sell_orders] is a permutation of the
    list; an order is among the sell orders exactly when it is in the list
    with [is_sell] set, among the buy orders exactly when it is in the list
    with [is_sell] unset, and so never among both; the two results together
    have as many orders as the list.  Both are functions of the list alone. *)
Theorem buy_sell_partition :
  (forall our_orders : list EToro.Order,
     Permutation (EToro.our_buy_orders our_orders ++ EToro.our_sell_orders our_orders)
                 our_orders
     /\ (forall order, In order (EToro.our_sell_orders our_orders)
                       <-> In order our_orders /\ EToro.is_sell order = true)
     /\ (forall order, In order (EToro.our_buy_orders our_orders)
                       <-> In order our_orders /\ EToro.is_sell order = false)
     /\ (forall order, ~ (In order (EToro.our_buy_orders our_orders)
                          /\ In order (EToro.our_sell_orders our_orders)))
     /\ (length (EToro.our_buy_orders our_orders) + length (EToro.our_sell_orders our_orders)
         = length our_orders)%nat)
  /\
  (forall our_orders : list Kraken.Order,
     Permutation (Kraken.our_buy_orders our_orders ++ Kraken.our_sell_orders our_orders)
                 our_orders
     /\ (forall order, In order (Kraken.our_sell_orders our_orders)
                       <-> In order our_orders /\ Kraken.is_sell order = true)
     /\ (forall order, In order (Kraken.our_buy_orders our_orders)
                       <-> In order our_orders /\ Kraken.is_sell order = false)
     /\ (forall order, ~ (In order (Kraken.our_buy_orders our_orders)
                          /\ In order (Kraken.our_sell_orders our_orders)))
     /\ (length (Kraken.our_buy_orders our_orders)
         + length (Kraken.our_sell_orders our_orders)
         = length our_orders)%nat).
Proof.
  split; intros our_orders.
  - unfold EToro.our_buy_orders, EToro.our_sell_orders.
    split; [apply (filter_partition_perm EToro.is_sell)|].
    split; [intros o; apply filter_In|].
    split; [intros o; rewrite filter_In, negb_true_iff; reflexivity|].
    split; [|apply (filter_partition_length EToro.is_sell)].
    intros o [Hb Hs]. apply filter_In in Hb, Hs.
    destruct Hb as [_ Hb], Hs as [_ Hs]. rewrite Hs in Hb. discriminate.
  - unfold Kraken.our_buy_orders, Kraken.our_sell_orders.
    split; [apply (filter_partition_perm Kraken.is_sell)|].
    split; [intros o; apply filter_In|].
    split; [intros o; rewrite filter_In, negb_true_iff; reflexivity|].
    split; [|apply (filter_partition_length Kraken.is_sell)].
    intros o [Hb Hs]. apply filter_In in Hb, Hs.
    destruct Hb as [_ Hb], Hs as [_ Hs]. rewrite Hs in Hb. discriminate.
Qed.

(** ** The tokens of a Kraken pair *)

Lemma nonempty_length (s : string) : s <> EmptyString -> (1 <= String.length s)%nat.
Proof. destruct s; [congruence | simpl; lia]. Qed.

(** C10.  For every [--pair] argument of the Kraken keeper, [token_sell()]
    is its first three characters (all of it when it is shorter) and
    [token_buy()] is the rest, so the two put together give the argument
    back.  When the argument is a base symbol followed by a quote symbol
    that is not empty, the two tokens are the base and the quote symbols
    exactly when the base symbol has three characters. *)
Theorem kraken_pair_split (self : Kraken.Keeper) :
  String.append (Kraken.token_sell self) (Kraken.token_buy self) = Kraken.arguments_pair self
  /\ String.length (Kraken.token_sell self)
     = Nat.min 3 (String.length (Kraken.arguments_pair self))
  /\ (forall base quote,
        Kraken.arguments_pair self = String.append base quote ->
        quote <> EmptyString ->
        (Kraken.token_sell self = base /\ Kraken.token_buy self = quote
         <-> String.length base = 3%nat)).
Proof.
  unfold Kraken.token_sell, Kraken.token_buy.
  split; [apply take_drop|]. split; [apply take_length|].
  intros base quote Hpair Hquote. rewrite Hpair.
  apply nonempty_length in Hquote. split.
  - intros [Hsell _].
    assert (Hlen : String.length (PyStr.take 3 (String.append base quote))
                   = String.length base) by (rewrite Hsell; reflexivity).
    rewrite take_length, append_length in Hlen. lia.
  - intros Hthree. rewrite <- Hthree. split.
    + apply take_app_exact.
    + apply drop_app_exact.
Qed.

(** On the pair ETHUSD. *)
Lemma kraken_pair_split_witness :
  Kraken.arguments_pair Sample.kraken = String.append "ETH" "USD"
  /\ "USD" <> EmptyString
  /\ (Kraken.token_sell Sample.kraken = "ETH" /\ Kraken.token_buy Sample.kraken = "USD"
      <-> String.length "ETH" = 3%nat).
Proof.
  split; [reflexivity|]. split; [discriminate|].
  exact (proj2 (proj2 (kraken_pair_split Sample.kraken)) "ETH" "USD" eq_refl
               (fun H : "USD" = EmptyString => eq_ind "USD"
                  (fun s => match s with EmptyString => False | String _ _ => True end)
                  I EmptyString H)).
Defined.

(** ** One task per generated order *)



(** A venue that refuses every sell order, with the tasks run once the loop
    is over and its variable holds the last order: the sell submission of
    the batch fails, and the buy submission scheduled after it is still
    attempted and placed. *)
Example refused_submission_is_dropped_alone :
  let api := fun request : EToro.PlaceRequest =>
               if String.eqb (EToro.req_side request) "sell" then inl VenueError
               else inr "42" in
  let runs := EToro.execute "ETH_USD" api "2020-01-01T00:00:00+00:00"
                (List.last (map Some Sample.two_orders) None)
                (scheduled_tasks (events (run_tick (EToro.place_orders Sample.two_orders)))) in
  EToro.attempted runs
    = [EToro.mkRequest "ethusd" "sell" (Sample.wad 201) (Sample.wad 1);
       EToro.mkRequest "ethusd" "buy" (Sample.wad 199) (Sample.wad 1)]
  /\ map outcome runs
     = [inl VenueError;
        inr (EToro.mkOrder "42" "2020-01-01T00:00:00+00:00" "ethusd" false
                           (Sample.wad 199) (Sample.wad 1))].
Proof. split; reflexivity. Qed.

(** What the default argument is for: the same two tasks without it read
    the loop variable when they run, and both submit the last order. *)
Example tasks_without_default_share_last_order :
  EToro.attempted
    (EToro.execute "ETH_USD" (fun _ => inr "42") "2020-01-01T00:00:00+00:00"
       (List.last (map Some Sample.two_orders) None) [mkTask None; mkTask None])
  = [EToro.mkRequest "ethusd" "buy" (Sample.wad 199) (Sample.wad 1);
     EToro.mkRequest "ethusd" "buy" (Sample.wad 199) (Sample.wad 1)].
Proof. reflexivity. Qed.

(** ** One tick of the Uniswap keeper *)

(** A branch at the head of a [wp] goal: one goal per case. *)
Ltac wp_branch :=
  lazymatch goal with
  | |- wp (if ?b then _ else _) _ _ => destruct b eqn:?
  | |- wp (match ?x with _ => _ end) _ _ => destruct x eqn:?
  end; cbv beta iota.

Section UniswapTick.
Import Uniswap.
Context {num : Type} {number : PyNumber num} {Chain : Type}.
Variable exchange : Exchange Chain.
Variable self : Keeper (num := num).
Variable r : Reading (num := num).
Variable chain : Chain.

(** Every tick is one of the three. *)
Lemma place_liquidity_calls :
  tick_calls exchange self r chain (deposits (events (place_liquidity exchange self r chain)))
             (withdrawals (events (place_liquidity exchange self r chain))).
Proof.
  change (wp (place_liquidity exchange self r) chain
             (fun ev _ _ => tick_calls exchange self r chain (deposits ev) (withdrawals ev))).
  unfold place_liquidity, diff_of, add_branch, remove_branch, eth_amount_to_add,
    truediv, py_int, call_balanceOf, call_add_liquidity, call_remove_liquidity.
  fold (threshold self r).
  repeat first [wp_step | wp_branch].
  all: cbn [app deposits withdrawals flat_map].
  all: try (exfalso;
            match goal with
            | H1 : lt ?a ?b = true, H2 : lt ?b ?a = true |- _ =>
                rewrite (lt_asym _ _ H1) in H2; discriminate H2
            end).
  all: try apply calls_nothing.
  all: try (apply calls_withdrawal; [assumption | apply Z.ltb_lt; assumption]).
  all: match goal with
       | H : _ && _ = true |- _ => apply andb_prop in H; destruct H as [Hpos Hzero]
       end;
       apply Z.eqb_eq in Hzero;
       apply calls_deposit; assumption.
Qed.

End UniswapTick.

(** ** When the pool keeper deposits and withdraws *)



(** The two readings of the specification, run in binary64: with feed price
    100 and pool price 102 the keeper withdraws its 7 liquidity tokens, and
    does nothing when it holds none; with pool price 100.5 it deposits from
    an empty position (2.98 ETH, in wei), and does nothing when it already
    holds tokens. *)
Example rebalancing_examples :
  Uniswap.withdrawals
    (events (Uniswap.place_liquidity Sample.pool Sample.keeper64 Sample.far64 7))
    = [(Uniswap.token Sample.keeper64, 7)]
  /\ Uniswap.withdrawals
       (events (Uniswap.place_liquidity Sample.pool Sample.keeper64 Sample.far64 0)) = []
  /\ Uniswap.deposits
       (events (Uniswap.place_liquidity Sample.pool Sample.keeper64 Sample.near64 0))
     = [(Uniswap.token Sample.keeper64, 2980000000000000000, 1490000000000000000)]
  /\ Uniswap.deposits
       (events (Uniswap.place_liquidity Sample.pool Sample.keeper64 Sample.near64 5)) = [].
Proof. repeat split; vm_compute; reflexivity. Qed.

(** ** The withdrawal is of the whole position *)

(** C8.  In every tick of the pool keeper, [remove_liquidity] is called at
    most once, and when it is called its arguments are the keeper's token
    and the whole liquidity-token balance the keeper holds at the start of
    the tick: no call withdraws a part of it. *)
Theorem withdrawal_is_whole_position {num : Type} {number : Uniswap.PyNumber num}
    {Chain : Type} (exchange : Uniswap.Exchange Chain) (self : Uniswap.Keeper)
    (r : Uniswap.Reading) (chain : Chain) :
  Uniswap.withdrawals (events (Uniswap.place_liquidity exchange self r chain)) = []
  \/ (Uniswap.withdrawals (events (Uniswap.place_liquidity exchange self r chain))
        = [(Uniswap.token self, Uniswap.balanceOf exchange chain)]
      /\ 0 < Uniswap.balanceOf exchange chain
      /\ Uniswap.deposits (events (Uniswap.place_liquidity exchange self r chain)) = []).
Proof.
  pose proof (place_liquidity_calls exchange self r chain) as Hcalls.
  destruct Hcalls as [ | a b _ _ _ _ _ _ | _ Hpos ].
  - left. reflexivity.
  - left. reflexivity.
  - right. repeat split. exact Hpos.
Qed.

(** ** The amount of a deposit *)

(** [int(x)] drops the fraction of a double: for a finite [x] with
    mantissa [m] and a negative exponent [e], the result has the sign of [x]
    and its magnitude is the integer part of [m / 2^(-e)]. *)
Lemma float_to_int_truncates (x : float) (s : bool) (m : positive) (e n : Z) :
  Prim2SF x = S754_finite s m e ->
  e < 0 ->
  Uniswap.float_to_int x = inr n ->
  n = (if s then - Z.abs n else Z.abs n)
  /\ Z.abs n * 2 ^ (- e) <= Z.pos m < (Z.abs n + 1) * 2 ^ (- e).
Proof.
  intros Hx He Hn. unfold Uniswap.float_to_int in Hn. rewrite Hx in Hn.
  destruct (0 <=? e) eqn:Hsign; [apply Z.leb_le in Hsign; lia|].
  assert (Hpow : 0 < 2 ^ (- e)) by (apply Z.pow_pos_nonneg; lia).
  assert (Hq : 0 <= Z.pos m / 2 ^ (- e)) by (apply Z.div_pos; lia).
  assert (Habs : Z.abs n = Z.pos m / 2 ^ (- e))
    by (destruct s; inversion Hn; lia).
  split.
  - destruct s; inversion Hn; lia.
  - rewrite Habs. split.
    + rewrite Z.mul_comm. apply Z.mul_div_le. exact Hpow.
    + rewrite Z.mul_comm. apply Z.mul_succ_div_gt. exact Hpow.
Qed.

(** C7, as stated, fails.  A wallet of 0.03 ETH and 1000 tokens, feed price
    100, pool price 100.5 and no position: the amount of the claim is
    min(0.03 - 0.02, 0.95 * 1000 / 100.5) = 0.01 ETH, which is 10^16 wei, and
    the keeper deposits 9999999999999998 wei, since in binary64
    [0.03 - 0.02] is below 0.01. *)
Lemma deposit_is_not_the_exact_amount :
  Uniswap.deposits
    (events (Uniswap.place_liquidity Sample.pool Sample.keeper64
               (wallet_reading 100%float 100.5%float (1000 * 10 ^ 18) (3 * 10 ^ 16)) 0))
    = [(Uniswap.token Sample.keeper64, 9999999999999998, 4999999999999999)]
  /\ (specified_deposit_amount (3 * 10 ^ 16 # 10 ^ 18) (1000 * 10 ^ 18 # 10 ^ 18) (201 # 2)
        * inject_Z Uniswap.ONE_ETH == inject_Z (10 ^ 16))%Q
  /\ 9999999999999998 <> 10 ^ 16.
Proof.
  split; [vm_compute; reflexivity|]. split; [vm_compute; reflexivity|].
  vm_compute. discriminate.
Qed.

(** C7, amended.  Whenever a tick of the pool keeper sends a deposit, its
    first argument is [int(amount * ONE_ETH)] and its second
    [int(0.5 * amount * ONE_ETH)], with
    [amount = min(eth_balance - 0.02, (token_balance*95/100)/uniswap_price)]
    evaluated in binary64, operation by operation in this order, [0.02]
    being the double nearest to it and [int] the truncation of a double:
    the gas reserve is 0.02 ETH and the token side is 95% of the balance at
    the pool price, up to the rounding of each operation. *)
Theorem deposit_amount_binary64 (Chain : Type) (exchange : Uniswap.Exchange Chain)
    (self : Uniswap.Keeper (num := float)) (r : Uniswap.Reading (num := float))
    (chain : Chain) (token : string) (max_eth min_liquidity : Z) :
  In (token, max_eth, min_liquidity)
     (Uniswap.deposits (events (Uniswap.place_liquidity exchange self r chain))) ->
  token = Uniswap.token self
  /\ Uniswap.float_to_int
       (binary64_deposit_amount (Uniswap.eth_balance r) (Uniswap.token_balance r)
                                (Uniswap.uniswap_price r) * 1e18)%float
     = inr max_eth
  /\ Uniswap.float_to_int
       (0.5 * binary64_deposit_amount (Uniswap.eth_balance r) (Uniswap.token_balance r)
                                      (Uniswap.uniswap_price r) * 1e18)%float
     = inr min_liquidity.
Proof.
  intros Hin.
  pose proof (place_liquidity_calls exchange self r chain) as Hcalls.
  destruct Hcalls as [ | a b _ _ _ _ Ha Hb | _ _ ]; try contradiction.
  destruct Hin as [Hin | []]. inversion Hin; subst.
  split; [reflexivity|]. split; [exact Ha | exact Hb].
Qed.

(** A wallet of 0.02001 ETH and 1000 tokens at pool price 100.5: the amount
    in wei is the double 9999999999999.592, sent as 9999999999999, and half
    of it is 4999999999999.796, sent as 4999999999999. *)
Lemma deposit_amount_binary64_witness :
  In (Uniswap.token Sample.keeper64, 9999999999999, 4999999999999)
     (Uniswap.deposits
        (events (Uniswap.place_liquidity Sample.pool Sample.keeper64
                   (wallet_reading 100%float 100.5%float (1000 * 10 ^ 18) 20010000000000000)
                   0)))
  /\ Uniswap.float_to_int
       (binary64_deposit_amount (int_truediv 20010000000000000 Uniswap.ONE_ETH)
                                (int_truediv (1000 * 10 ^ 18) Uniswap.ONE_ETH)
                                100.5 * 1e18)%float
     = inr 9999999999999
  /\ Uniswap.float_to_int
       (0.5 * binary64_deposit_amount (int_truediv 20010000000000000 Uniswap.ONE_ETH)
                                      (int_truediv (1000 * 10 ^ 18) Uniswap.ONE_ETH)
                                      100.5 * 1e18)%float
     = inr 4999999999999.
Proof.
  assert (Hsent : In (Uniswap.token Sample.keeper64, 9999999999999, 4999999999999)
                     (Uniswap.deposits
                        (events (Uniswap.place_liquidity Sample.pool Sample.keeper64
                                   (wallet_reading 100%float 100.5%float (1000 * 10 ^ 18)
                                                   20010000000000000)
                                   0))))
    by (vm_compute; left; reflexivity).
  split; [exact Hsent|].
  exact (proj2 (deposit_amount_binary64 Z Sample.pool Sample.keeper64
                  (wallet_reading 100%float 100.5%float (1000 * 10 ^ 18) 20010000000000000)
                  0 _ _ _ Hsent)).
Defined.

(** * Further properties of the keepers *)

(** ** Splitting and joining a pair *)

Lemma split_without_separator (sep : ascii) (s : string) :
  has_char sep s = false -> PyStr.split sep s = [s].
Proof.
  induction s as [|c s IH]; [reflexivity|].
  cbn [has_char PyStr.split]. intros Hno. apply orb_false_iff in Hno.
  destruct Hno as [Hc Hs]. rewrite Hc, (IH Hs). reflexivity.
Qed.

Lemma split_at_separator (sep : ascii) (a b : string) :
  has_char sep a = false ->
  PyStr.split sep (String.append a (String sep b)) = a :: PyStr.split sep b.
Proof.
  induction a as [|c a IH]; intros Hno.
  - rewrite append_empty. cbn [PyStr.split]. rewrite Ascii.eqb_refl. reflexivity.
  - cbn [has_char] in Hno. apply orb_false_iff in Hno. destruct Hno as [Hc Ha].
    rewrite append_cons. cbn [PyStr.split]. rewrite Hc, (IH Ha). reflexivity.
Qed.

Lemma split_has_separator (sep : ascii) (s : string) :
  has_char sep s = true -> exists first second rest, PyStr.split sep s = first :: second :: rest.
Proof.
  induction s as [|c s IH]; [discriminate|].
  cbn [has_char PyStr.split]. intros Hhas.
  destruct (Ascii.eqb c sep) eqn:Hc.
  - destruct (PyStr.split sep s) as [|w ws] eqn:Hsplit.
    + exfalso. exact (split_not_empty sep s Hsplit).
    + exists EmptyString, w, ws. reflexivity.
  - cbn [orb] in Hhas. destruct (IH Hhas) as (f & sd & rest & Hsplit).
    rewrite Hsplit. exists (String c f), sd, rest. reflexivity.
Qed.

(** Joining the pieces of a split gives the string without the separators. *)
Lemma join_split (sep : ascii) (s : string) :
  PyStr.join (PyStr.split sep s) = remove_char sep s.
Proof.
  induction s as [|c s IH]; [reflexivity|].
  cbn [PyStr.split remove_char]. destruct (Ascii.eqb c sep).
  - unfold PyStr.join in *. cbn [fold_right]. rewrite append_empty. exact IH.
  - destruct (PyStr.split sep s) as [|w ws] eqn:Hsplit.
    + exfalso. exact (split_not_empty sep s Hsplit).
    + unfold PyStr.join in *. cbn [fold_right] in *. rewrite append_cons, IH. reflexivity.
Qed.

Lemma remove_char_gone (c : ascii) (s : string) : has_char c (remove_char c s) = false.
Proof.
  induction s as [|c' s IH]; [reflexivity|].
  cbn [remove_char]. destruct (Ascii.eqb c' c) eqn:Hc; [exact IH|].
  cbn [has_char]. rewrite Hc, IH. reflexivity.
Qed.

(** Lowering a character neither makes nor unmakes an underscore. *)
Lemma lower_char_underscore (c : ascii) :
  Ascii.eqb (PyStr.lower_char c) "_" = Ascii.eqb c "_".
Proof.
  destruct c as [[] [] [] [] [] [] [] []]; reflexivity.
Qed.

Lemma lower_char_idempotent (c : ascii) :
  PyStr.lower_char (PyStr.lower_char c) = PyStr.lower_char c.
Proof.
  destruct c as [[] [] [] [] [] [] [] []]; reflexivity.
Qed.

Lemma lower_idempotent (s : string) : PyStr.lower (PyStr.lower s) = PyStr.lower s.
Proof.
  unfold PyStr.lower. induction s as [|c s IH]; [reflexivity|].
  cbn [PyStr.map_chars]. rewrite lower_char_idempotent, IH. reflexivity.
Qed.

Lemma lower_append (a b : string) :
  PyStr.lower (String.append a b) = String.append (PyStr.lower a) (PyStr.lower b).
Proof.
  unfold PyStr.lower. induction a as [|c a IH].
  - rewrite append_empty. reflexivity.
  - rewrite append_cons. cbn [PyStr.map_chars]. rewrite append_cons, IH. reflexivity.
Qed.

Lemma lower_has_underscore (s : string) : has_char "_" (PyStr.lower s) = has_char "_" s.
Proof.
  unfold PyStr.lower. induction s as [|c s IH]; [reflexivity|].
  cbn [PyStr.map_chars has_char]. rewrite lower_char_underscore, IH. reflexivity.
Qed.

Lemma lower_remove_underscore (s : string) :
  remove_char "_" (PyStr.lower s) = PyStr.lower (remove_char "_" s).
Proof.
  unfold PyStr.lower. induction s as [|c s IH]; [reflexivity|].
  cbn [PyStr.map_chars remove_char]. rewrite lower_char_underscore.
  destruct (Ascii.eqb c "_"); [exact IH|].
  cbn [PyStr.map_chars]. rewrite IH. reflexivity.
Qed.

Lemma remove_char_absent (c : ascii) (s : string) :
  has_char c s = false -> remove_char c s = s.
Proof.
  induction s as [|c' s IH]; [reflexivity|].
  cbn [has_char remove_char]. intros Hno. apply orb_false_iff in Hno.
  destruct Hno as [Hc Hs]. rewrite Hc, (IH Hs). reflexivity.
Qed.

Lemma remove_char_append (c : ascii) (a b : string) :
  remove_char c (String.append a b) = String.append (remove_char c a) (remove_char c b).
Proof.
  induction a as [|c' a IH].
  - rewrite !append_empty. reflexivity.
  - rewrite append_cons. cbn [remove_char]. destruct (Ascii.eqb c' c); [exact IH|].
    rewrite append_cons, IH. reflexivity.
Qed.

(** ** The tokens and the venue symbol of an eToro pair *)

(** For a pair written [base_quote], the two symbols being ASCII strings
    with no underscore inside, [token_sell()] is the base and [token_buy()]
    the quote, both in lower case, and the pair sent to the venue,
    [_join_string(pair())], is the two tokens put together. *)
Theorem etoro_pair_tokens (base quote : string) :
  is_ascii base = true ->
  is_ascii quote = true ->
  has_char "_" base = false ->
  has_char "_" quote = false ->
  run_tick (EToro.token_sell (String.append base (String "_" quote)))
    = mkRes [] tt (inr (PyStr.lower base))
  /\ run_tick (EToro.token_buy (String.append base (String "_" quote)))
     = mkRes [] tt (inr (PyStr.lower quote))
  /\ EToro._join_string (EToro.pair (String.append base (String "_" quote)))
     = String.append (PyStr.lower base) (PyStr.lower quote).
Proof.
  intros _ _ Hbase Hquote.
  assert (Hsplit : PyStr.split "_" (String.append base (String "_" quote)) = [base; quote])
    by (rewrite (split_at_separator "_" base quote Hbase),
          (split_without_separator "_" quote Hquote); reflexivity).
  split; [|split].
  - unfold run_tick, EToro.token_sell. rewrite Hsplit. reflexivity.
  - unfold run_tick, EToro.token_buy. rewrite Hsplit. reflexivity.
  - unfold EToro._join_string, EToro.pair.
    rewrite join_split, lower_remove_underscore, lower_idempotent.
    rewrite remove_char_append. cbn [remove_char]. rewrite Ascii.eqb_refl.
    rewrite (remove_char_absent "_" base Hbase), (remove_char_absent "_" quote Hquote).
    apply lower_append.
Qed.

(** On the pair ETH_USD. *)
Lemma etoro_pair_tokens_witness :
  run_tick (EToro.token_sell "ETH_USD") = mkRes [] tt (inr "eth")
  /\ run_tick (EToro.token_buy "ETH_USD") = mkRes [] tt (inr "usd")
  /\ EToro._join_string (EToro.pair "ETH_USD") = "ethusd".
Proof. exact (etoro_pair_tokens "ETH" "USD" eq_refl eq_refl eq_refl eq_refl). Defined.

(** [token_buy()] raises [IndexError] exactly when the [--pair] argument has
    no underscore; [token_sell()] never raises. *)
Theorem etoro_token_buy_needs_underscore (arguments_pair : string) :
  (run_tick (EToro.token_buy arguments_pair) = mkRes [] tt (inl IndexError)
   <-> has_char "_" arguments_pair = false)
  /\ exists token, run_tick (EToro.token_sell arguments_pair) = mkRes [] tt (inr token).
Proof.
  split.
  - unfold run_tick, EToro.token_buy. split.
    + intros Hraise. destruct (has_char "_" arguments_pair) eqn:Hhas; [|reflexivity].
      destruct (split_has_separator "_" arguments_pair Hhas) as (f & sd & rest & Hsplit).
      rewrite Hsplit in Hraise. discriminate Hraise.
    + intros Hno. rewrite (split_without_separator "_" arguments_pair Hno). reflexivity.
  - unfold run_tick, EToro.token_sell.
    destruct (PyStr.split "_" arguments_pair) as [|w ws] eqn:Hsplit.
    + exfalso. exact (split_not_empty "_" arguments_pair Hsplit).
    + exists (PyStr.lower w). reflexivity.
Qed.

(** For every ASCII string, [_join_string] returns it in lower case with
    the underscores taken out: the result has no underscore, and lowering
    the string first, as [pair()] does, changes nothing. *)
Theorem etoro_join_string_clean (s : string) :
  is_ascii s = true ->
  EToro._join_string s = PyStr.lower (remove_char "_" s)
  /\ has_char "_" (EToro._join_string s) = false
  /\ EToro._join_string (EToro.pair s) = EToro._join_string s.
Proof.
  intros _.
  unfold EToro._join_string, EToro.pair. rewrite !join_split.
  split; [reflexivity|]. split.
  - rewrite lower_has_underscore. apply remove_char_gone.
  - rewrite lower_remove_underscore. apply lower_idempotent.
Qed.

(** On the pair ETH_USD. *)
Lemma etoro_join_string_clean_witness :
  EToro._join_string "ETH_USD" = "ethusd"
  /\ has_char "_" (EToro._join_string "ETH_USD") = false
  /\ EToro._join_string (EToro.pair "ETH_USD") = EToro._join_string "ETH_USD".
Proof. exact (etoro_join_string_clean "ETH_USD" eq_refl). Defined.

(** ** The eToro balance lookup *)

(** When several entries carry the currency, the lookup returns the balance
    of the first of them, and makes no call. *)
Theorem etoro_balance_first_listed (before after : list EToro.BalanceEntry)
    (entry : EToro.BalanceEntry) (token : string) :
  (forall other, In other before -> EToro.currency other <> token) ->
  EToro.currency entry = token ->
  run_tick (EToro.our_available_balance (before ++ entry :: after) token)
    = mkRes [] tt (inr (EToro.balance entry)).
Proof.
  intros Hbefore Hentry. unfold run_tick, EToro.our_available_balance.
  assert (Hfilter : exists rest,
             List.filter (fun x => String.eqb (EToro.currency x) token)
                         (before ++ entry :: after) = entry :: rest).
  { induction before as [|e l IH]; cbn [app List.filter].
    - rewrite Hentry, String.eqb_refl. eexists. reflexivity.
    - destruct (String.eqb (EToro.currency e) token) eqn:Heq.
      + apply String.eqb_eq in Heq. exfalso. exact (Hbefore e (or_introl eq_refl) Heq).
      + apply IH. intros x Hin. apply Hbefore. now right. }
  destruct Hfilter as [rest Hfilter]. rewrite Hfilter. reflexivity.
Qed.

(** Two USD entries after an ETH entry: the first USD entry counts. *)
Lemma etoro_balance_first_listed_witness :
  run_tick (EToro.our_available_balance
              ([EToro.mkBalance "eth" 5]
               ++ EToro.mkBalance "usd" 7 :: [EToro.mkBalance "usd" 9]) "usd")
    = mkRes [] tt (inr 7).
Proof.
  refine (etoro_balance_first_listed [EToro.mkBalance "eth" 5] [EToro.mkBalance "usd" 9]
            (EToro.mkBalance "usd" 7) "usd" _ eq_refl).
  intros other [Heth | []] Hcur. rewrite <- Heth in Hcur. discriminate Hcur.
Defined.

(** Only an ETH entry, and the USD balance asked for. *)
Lemma etoro_unlisted_currency_raises_witness :
  run_tick (EToro.our_available_balance [EToro.mkBalance "eth" 5] "usd")
    = mkRes [] tt (inl IndexError).
Proof.
  refine (etoro_unlisted_currency_raises [EToro.mkBalance "eth" 5] "usd" _).
  intros entry [Heth | []] Hcur. rewrite <- Heth in Hcur. discriminate Hcur.
Defined.

(** ** The Kraken balance lookup *)

(** The lookup never invents a balance: it returns zero, or the balance
    reported under the symbol of an asset whose altname is the token. *)
Theorem kraken_balance_is_reported_or_zero (self : Kraken.Keeper)
    (our_balances : gmap string Wad) (token : string) :
  Kraken.our_available_balance self our_balances token = 0
  \/ exists symbol,
       In (symbol, token) (Kraken.assets self)
       /\ our_balances !! symbol
          = Some (Kraken.our_available_balance self our_balances token).
Proof.
  unfold Kraken.our_available_balance.
  induction (Kraken.assets self) as [|[symbol altname] rest IH]; [left; reflexivity|].
  cbn [Kraken.our_available_balance_loop].
  destruct (String.eqb altname token) eqn:Heq.
  - apply String.eqb_eq in Heq. destruct (our_balances !! symbol) as [reported|] eqn:Hget.
    + right. exists symbol. split; [left; now rewrite Heq | exact Hget].
    + destruct IH as [IH | (s & Hin & Hget')]; [left; exact IH|].
      right. exists s. split; [right; exact Hin | exact Hget'].
  - destruct IH as [IH | (s & Hin & Hget')]; [left; exact IH|].
    right. exists s. split; [right; exact Hin | exact Hget'].
Qed.

(** When one asset only has the token as its altname, the lookup returns
    what is reported under that asset's symbol, and zero when nothing is. *)
Theorem kraken_balance_of_asset (self : Kraken.Keeper) (our_balances : gmap string Wad)
    (token symbol : string) :
  In (symbol, token) (Kraken.assets self) ->
  (forall other altname,
     In (other, altname) (Kraken.assets self) -> altname = token -> other = symbol) ->
  Kraken.our_available_balance self our_balances token
    = match our_balances !! symbol with
      | Some reported => reported
      | None => 0
      end.
Proof.
  unfold Kraken.our_available_balance.
  induction (Kraken.assets self) as [|[s a] rest IH]; intros Hin Honly; [contradiction|].
  cbn [Kraken.our_available_balance_loop].
  destruct (String.eqb a token) eqn:Heq.
  - apply String.eqb_eq in Heq.
    rewrite (Honly s a (or_introl eq_refl) Heq).
    destruct (our_balances !! symbol) as [reported|] eqn:Hget; [reflexivity|].
    assert (Hzero : Kraken.our_available_balance (Kraken.mkKeeper EmptyString rest 0)
                      our_balances token = 0).
    { apply kraken_unreported_currency_is_zero. cbn [Kraken.assets].
      intros s' a' Hin' Ha'. rewrite (Honly s' a' (or_intror Hin') Ha'). exact Hget. }
    exact Hzero.
  - destruct Hin as [Hhead | Hin].
    + injection Hhead as _ Ha. rewrite Ha, String.eqb_refl in Heq. discriminate Heq.
    + apply IH; [exact Hin|]. intros s' a' Hin' Ha'. apply (Honly s' a'); [now right | exact Ha'].
Qed.

(** The sample keeper: ETH is the altname of XETH alone, reported at 5 ETH. *)
Lemma kraken_balance_of_asset_witness :
  Kraken.our_available_balance Sample.kraken (Sample.kraken_balances 5 100) "ETH"
    = match Sample.kraken_balances 5 100 !! "XETH" with
      | Some reported => reported
      | None => 0
      end.
Proof.
  refine (kraken_balance_of_asset Sample.kraken (Sample.kraken_balances 5 100)
            "ETH" "XETH" (or_introl eq_refl) _).
  intros other altname [Hx | [Hz | []]] Halt.
  - injection Hx as Hother _. symmetry. exact Hother.
  - injection Hz as _ Ha. rewrite <- Ha in Halt. discriminate Halt.
Defined.

(** The sample keeper asked for a token no asset is called by. *)
Lemma kraken_unreported_currency_is_zero_witness :
  Kraken.our_available_balance Sample.kraken (Sample.kraken_balances 5 100) "DAI" = 0.
Proof.
  refine (kraken_unreported_currency_is_zero Sample.kraken (Sample.kraken_balances 5 100)
            "DAI" _).
  intros symbol altname [Hx | [Hz | []]] Halt.
  - injection Hx as _ Ha. rewrite <- Ha in Halt. discriminate Halt.
  - injection Hz as _ Ha. rewrite <- Ha in Halt. discriminate Halt.
Defined.

(** ** The calls of a tick, in order *)

(** In every tick of the Kraken keeper the calls are, in this order: the
    [cancellable_orders] query on the buy and sell orders of the snapshot;
    then either one [cancel_orders] call with the stale orders, when there
    are some; or one debug log, when there are none and the order book is
    not confirmed; or, when there are none and it is confirmed, one
    [new_orders] call followed by one [place_order] call per generated
    order and nothing else, unless the tick stopped after the query.  A
    tick that returns did not stop after the query. *)
Theorem kraken_tick_trace (remaining_sell_amount : Kraken.Order -> Wad)
    (self : Kraken.Keeper) (bands : Bands Kraken.Order)
    (order_book : OrderBook Kraken.Order (gmap string Wad)) (target_price : Price) :
  tick_trace bands (Kraken.our_buy_orders (orders order_book))
             (Kraken.our_sell_orders (orders order_book)) target_price
             (orders_being_placed order_book || orders_being_cancelled order_book)
             (events (run_tick (Kraken.synchronize_orders remaining_sell_amount self bands
                                                          order_book target_price)))
  /\ (outcome (run_tick (Kraken.synchronize_orders remaining_sell_amount self bands
                                                   order_book target_price)) = inr tt ->
      events (run_tick (Kraken.synchronize_orders remaining_sell_amount self bands
                                                  order_book target_price))
        <> [CancellableOrdersCall (Kraken.our_buy_orders (orders order_book))
                                  (Kraken.our_sell_orders (orders order_book))
                                  target_price]).
Proof.
  destruct (cancellable_orders bands (Kraken.our_buy_orders (orders order_book))
              (Kraken.our_sell_orders (orders order_book)) target_price)
    as [|o stale] eqn:Hc.
  - destruct (orders_being_placed order_book || orders_being_cancelled order_book) eqn:Hflag.
    + rewrite (kraken_tick_waits remaining_sell_amount self bands order_book target_price
                                 Hc Hflag).
      split; [apply trace_waiting; [exact Hc | reflexivity] | cbn [events]; discriminate].
    + rewrite (kraken_tick_places remaining_sell_amount self bands order_book target_price
                                  Hc Hflag).
      split; [apply trace_placed; [exact Hc | reflexivity] | cbn [events]; discriminate].
  - assert (Hne : cancellable_orders bands (Kraken.our_buy_orders (orders order_book))
                    (Kraken.our_sell_orders (orders order_book)) target_price <> [])
      by (rewrite Hc; discriminate).
    rewrite (kraken_tick_cancels remaining_sell_amount self bands order_book target_price Hne).
    split; [apply trace_cancelled; exact Hne | cbn [events]; discriminate].
Qed.

(** In every tick of the eToro keeper the calls are, in this order: the
    [cancellable_orders] query on the buy and sell orders of the snapshot;
    then either one [cancel_orders] call with the stale orders, when there
    are some; or one debug log, when there are none and the order book is
    not confirmed; or, when there are none and it is confirmed, one
    [new_orders] call followed by one [place_order] call per generated
    order and nothing else, unless the tick stopped after the query (at a
    token or balance lookup).  A tick that returns did not stop after the
    query. *)
Theorem etoro_tick_trace (arguments_pair : string) (bands : Bands EToro.Order)
    (order_book : OrderBook EToro.Order (list EToro.BalanceEntry)) (target_price : Price) :
  tick_trace bands (EToro.our_buy_orders (orders order_book))
             (EToro.our_sell_orders (orders order_book)) target_price
             (orders_being_placed order_book || orders_being_cancelled order_book)
             (events (run_tick (EToro.synchronize_orders arguments_pair bands order_book
                                                         target_price)))
  /\ (outcome (run_tick (EToro.synchronize_orders arguments_pair bands order_book
                                                  target_price)) = inr tt ->
      events (run_tick (EToro.synchronize_orders arguments_pair bands order_book
                                                 target_price))
        <> [CancellableOrdersCall (EToro.our_buy_orders (orders order_book))
                                  (EToro.our_sell_orders (orders order_book))
                                  target_price]).
Proof.
  unfold run_tick.
  change (wp (EToro.synchronize_orders arguments_pair bands order_book target_price) tt
            (fun ev _ out =>
               tick_trace bands (EToro.our_buy_orders (orders order_book))
                 (EToro.our_sell_orders (orders order_book)) target_price
                 (orders_being_placed order_book || orders_being_cancelled order_book) ev
               /\ (out = inr tt ->
                   ev <> [CancellableOrdersCall (EToro.our_buy_orders (orders order_book))
                                                (EToro.our_sell_orders (orders order_book))
                                                target_price]))).
  unfold EToro.synchronize_orders, call_cancellable_orders, call_new_orders,
    EToro.place_orders, EToro.token_buy, EToro.token_sell, EToro.our_available_balance,
    first_item, second_item.
  repeat wp_step.
  destruct (cancellable_orders bands (EToro.our_buy_orders (orders order_book))
              (EToro.our_sell_orders (orders order_book)) target_price)
    as [|o stale] eqn:Hc; cbn [length Nat.ltb Nat.leb].
  2: { wp_step. cbn [app]. split; [|discriminate].
       rewrite <- Hc. apply trace_cancelled. rewrite Hc. discriminate. }
  destruct (orders_being_placed order_book || orders_being_cancelled order_book) eqn:Hflag.
  { wp_step. cbn [app]. split; [|discriminate].
    apply trace_waiting; [exact Hc | reflexivity]. }
  repeat first [wp_step | wp_branch]; cbn [app];
    (split;
     [ first [ apply trace_placed; [exact Hc | reflexivity]
             | apply trace_aborted; [exact Hc | reflexivity] ]
     | discriminate ]).
Qed.

(** A pair with no underscore: a tick that gets past the cancellation and
    the gate ends in [IndexError] at [token_buy()], before the policy is
    asked for new orders. *)
Theorem etoro_tick_without_underscore (arguments_pair : string) (bands : Bands EToro.Order)
    (order_book : OrderBook EToro.Order (list EToro.BalanceEntry)) (target_price : Price) :
  has_char "_" arguments_pair = false ->
  cancellable_orders bands (EToro.our_buy_orders (orders order_book))
                     (EToro.our_sell_orders (orders order_book)) target_price = [] ->
  orders_being_placed order_book || orders_being_cancelled order_book = false ->
  run_tick (EToro.synchronize_orders arguments_pair bands order_book target_price)
    = mkRes [CancellableOrdersCall (EToro.our_buy_orders (orders order_book))
                                   (EToro.our_sell_orders (orders order_book)) target_price]
            tt (inl IndexError).
Proof.
  intros Hno Hc Hflag. unfold run_tick; apply wp_result.
  unfold EToro.synchronize_orders, call_cancellable_orders.
  repeat wp_step. rewrite Hc, Hflag. cbn [length Nat.ltb Nat.leb]. wp_step.
  unfold EToro.token_buy. rewrite (split_without_separator "_" arguments_pair Hno).
  wp_step. cbn [second_item]. wp_step. reflexivity.
Qed.

(** The pair given as ETHUSD, with nothing stale and a confirmed book. *)
Lemma etoro_tick_without_underscore_witness :
  run_tick (EToro.synchronize_orders "ETHUSD" Sample.keep_all (Sample.etoro_book false)
                                     Sample.target)
    = mkRes [CancellableOrdersCall
               (EToro.our_buy_orders (orders (Sample.etoro_book false)))
               (EToro.our_sell_orders (orders (Sample.etoro_book false))) Sample.target]
            tt (inl IndexError).
Proof.
  exact (etoro_tick_without_underscore "ETHUSD" Sample.keep_all (Sample.etoro_book false)
           Sample.target eq_refl eq_refl eq_refl).
Defined.

(** ** What a submission returns *)

(** In both order-book keepers a task makes one attempt.  When the venue
    accepts it, the order returned repeats the pair, the price and the
    amount of the request, and [our_sell_orders] or [our_buy_orders] keeps
    it according to the side of the new order; on Kraken nothing of it is
    filled.  When the venue refuses, the task ends in the venue's exception
    and returns no order. *)
Theorem submission_returns_what_was_sent :
  (forall arguments_pair api now new_order,
     events (run_tick (EToro.place_order_function arguments_pair api now new_order))
       = [EToro.place_request arguments_pair new_order]
     /\ match api (EToro.place_request arguments_pair new_order) with
        | inl e =>
            outcome (run_tick (EToro.place_order_function arguments_pair api now new_order))
              = inl e
        | inr id =>
            exists order,
              outcome (run_tick (EToro.place_order_function arguments_pair api now
                                                            new_order)) = inr order
              /\ EToro.order_id order = id
              /\ EToro.pair_of order
                 = EToro.req_pair (EToro.place_request arguments_pair new_order)
              /\ EToro.price order
                 = EToro.req_price (EToro.place_request arguments_pair new_order)
              /\ EToro.amount order
                 = EToro.req_amount (EToro.place_request arguments_pair new_order)
              /\ EToro.our_sell_orders [order] = (if new_is_sell new_order then [order] else [])
              /\ EToro.our_buy_orders [order] = (if new_is_sell new_order then [] else [order])
        end)
  /\
  (forall round_wad self api new_order,
     events (run_tick (Kraken.place_order_function round_wad self api new_order))
       = [Kraken.place_request round_wad self new_order]
     /\ match api (Kraken.place_request round_wad self new_order) with
        | inl e =>
            outcome (run_tick (Kraken.place_order_function round_wad self api new_order))
              = inl e
        | inr id =>
            exists order,
              outcome (run_tick (Kraken.place_order_function round_wad self api new_order))
                = inr order
              /\ Kraken.order_id order = id
              /\ Kraken.pair_of order
                 = Kraken.req_pair (Kraken.place_request round_wad self new_order)
              /\ Kraken.price order
                 = Kraken.req_price (Kraken.place_request round_wad self new_order)
              /\ Kraken.amount order
                 = Kraken.req_amount (Kraken.place_request round_wad self new_order)
              /\ Kraken.filled_amount order = 0
              /\ Kraken.our_sell_orders [order] = (if new_is_sell new_order then [order] else [])
              /\ Kraken.our_buy_orders [order] = (if new_is_sell new_order then [] else [order])
        end).
Proof.
  split.
  - intros pair_arg api now o.
    unfold run_tick, EToro.place_order_function, bind. cbn [emit events outcome final].
    destruct (api (EToro.place_request pair_arg o)) as [e|id]; cbn [raise ret events outcome app].
    + split; reflexivity.
    + split; [reflexivity|]. eexists. split; [reflexivity|].
      unfold EToro.our_sell_orders, EToro.our_buy_orders.
      cbn [List.filter EToro.is_sell EToro.order_id EToro.pair_of EToro.price EToro.amount
           EToro.place_request EToro.req_pair EToro.req_price EToro.req_amount].
      destruct (new_is_sell o); repeat split; reflexivity.
  - intros round_wad self api o.
    unfold run_tick, Kraken.place_order_function, bind. cbn [emit events outcome final].
    destruct (api (Kraken.place_request round_wad self o)) as [e|id];
      cbn [raise ret events outcome app].
    + split; reflexivity.
    + split; [reflexivity|]. eexists. split; [reflexivity|].
      unfold Kraken.our_sell_orders, Kraken.our_buy_orders.
      cbn [List.filter Kraken.is_sell Kraken.order_id Kraken.pair_of Kraken.price
           Kraken.amount Kraken.filled_amount Kraken.place_request Kraken.req_pair
           Kraken.req_price Kraken.req_amount].
      destruct (new_is_sell o); repeat split; reflexivity.
Qed.

(** ** The pool keeper: one transaction at most, and what it leaves *)

Section PoolTick.
Import Uniswap.
Context {num : Type} {number : PyNumber num} {Chain : Type}.
Variable exchange : Exchange Chain.
Variable self : Keeper (num := num).
Variable r : Reading (num := num).
Variable chain : Chain.

Lemma place_liquidity_effect :
  wp (place_liquidity exchange self r) chain
     (fun ev chain' o =>
        (deposits ev = [] /\ withdrawals ev = [] /\ chain' = chain)
        \/ (exists max_eth min_liquidity,
              deposits ev = [(token self, max_eth, min_liquidity)]
              /\ withdrawals ev = []
              /\ chain' = fst (add_liquidity_tx exchange chain max_eth min_liquidity)
              /\ o = end_after (snd (add_liquidity_tx exchange chain max_eth min_liquidity)))
        \/ (deposits ev = []
            /\ withdrawals ev = [(token self, balanceOf exchange chain)]
            /\ chain' = fst (remove_liquidity_tx exchange chain (balanceOf exchange chain))
            /\ o = end_after (snd (remove_liquidity_tx exchange chain
                                     (balanceOf exchange chain))))).
Proof.
  unfold place_liquidity, diff_of, add_branch, remove_branch, eth_amount_to_add,
    truediv, py_int, call_balanceOf, call_add_liquidity, call_remove_liquidity.
  repeat first [wp_step | wp_branch].
  all: cbn [app deposits withdrawals flat_map].
  all: try (exfalso;
            match goal with
            | H1 : lt ?a ?b = true, H2 : lt ?b ?a = true |- _ =>
                rewrite (lt_asym _ _ H1) in H2; discriminate H2
            end).
  all: first
         [ left; repeat split; reflexivity
         | right; left; do 2 eexists; repeat split;
           match goal with H : snd _ = _ |- _ => rewrite H end; reflexivity
         | right; right; repeat split;
           match goal with H : snd _ = _ |- _ => rewrite H end; reflexivity ].
Qed.

End PoolTick.

(** In every tick the pool keeper sends at most one transaction, a deposit
    or a withdrawal and never both.  A tick that sends nothing leaves the
    chain as it found it.  A tick that sends one leaves the chain as the
    transaction left it; it ends in the wrapper's exception when the call
    raised one and ends normally otherwise, also when the receipt reports
    a failed transaction. *)
Theorem pool_tick_effect {num : Type} {number : Uniswap.PyNumber num} {Chain : Type}
    (exchange : Uniswap.Exchange Chain) (self : Uniswap.Keeper) (r : Uniswap.Reading)
    (chain : Chain) :
  (Uniswap.deposits (events (Uniswap.place_liquidity exchange self r chain)) = []
   /\ Uniswap.withdrawals (events (Uniswap.place_liquidity exchange self r chain)) = []
   /\ final (Uniswap.place_liquidity exchange self r chain) = chain)
  \/ (exists max_eth min_liquidity,
        Uniswap.deposits (events (Uniswap.place_liquidity exchange self r chain))
          = [(Uniswap.token self, max_eth, min_liquidity)]
        /\ Uniswap.withdrawals (events (Uniswap.place_liquidity exchange self r chain)) = []
        /\ final (Uniswap.place_liquidity exchange self r chain)
           = fst (Uniswap.add_liquidity_tx exchange chain max_eth min_liquidity)
        /\ outcome (Uniswap.place_liquidity exchange self r chain)
           = end_after (snd (Uniswap.add_liquidity_tx exchange chain max_eth min_liquidity)))
  \/ (Uniswap.deposits (events (Uniswap.place_liquidity exchange self r chain)) = []
      /\ Uniswap.withdrawals (events (Uniswap.place_liquidity exchange self r chain))
         = [(Uniswap.token self, Uniswap.balanceOf exchange chain)]
      /\ final (Uniswap.place_liquidity exchange self r chain)
         = fst (Uniswap.remove_liquidity_tx exchange chain
                  (Uniswap.balanceOf exchange chain))
      /\ outcome (Uniswap.place_liquidity exchange self r chain)
         = end_after (snd (Uniswap.remove_liquidity_tx exchange chain
                             (Uniswap.balanceOf exchange chain)))).
Proof. exact (place_liquidity_effect exchange self r chain). Qed.

(** Python's [min] returns one of its two arguments, and neither of them is
    below it. *)
Lemma py_min_lower {num : Type} {number : Uniswap.PyNumber num} (a b : num) :
  (Uniswap.py_min a b = a \/ Uniswap.py_min a b = b)
  /\ Uniswap.lt a (Uniswap.py_min a b) = false
  /\ Uniswap.lt b (Uniswap.py_min a b) = false.
Proof.
  unfold Uniswap.py_min. destruct (Uniswap.lt b a) eqn:Hba.
  - split; [right; reflexivity|]. split.
    + apply (Uniswap.lt_asym _ _ Hba).
    + destruct (Uniswap.lt b b) eqn:Hbb; [|reflexivity].
      rewrite (Uniswap.lt_asym _ _ Hbb) in Hbb. discriminate Hbb.
  - split; [left; reflexivity|]. split; [|exact Hba].
    destruct (Uniswap.lt a a) eqn:Haa; [|reflexivity].
    rewrite (Uniswap.lt_asym _ _ Haa) in Haa. discriminate Haa.
Qed.

(** The pool keeper deposits only when the wallet holds more ETH than the
    gas reserve of 0.02 and the pool price is not zero, and the amount it
    converts to wei is above neither [eth_balance - 0.02] nor
    [(token_balance*95/100)/uniswap_price]: over any arithmetic of the
    number interface, binary64 included. *)
Theorem deposit_keeps_gas_reserve {num : Type} {number : Uniswap.PyNumber num}
    {Chain : Type} (exchange : Uniswap.Exchange Chain) (self : Uniswap.Keeper)
    (r : Uniswap.Reading) (chain : Chain) (token : string) (max_eth min_liquidity : Z) :
  In (token, max_eth, min_liquidity)
     (Uniswap.deposits (events (Uniswap.place_liquidity exchange self r chain))) ->
  Uniswap.lt (Uniswap.of_int 0) (Uniswap.sub (Uniswap.eth_balance r) Uniswap.lit_0_02) = true
  /\ Uniswap.is_zero (Uniswap.uniswap_price r) = false
  /\ exists amount,
       Uniswap.to_int (Uniswap.mul amount (Uniswap.of_int Uniswap.ONE_ETH)) = inr max_eth
       /\ Uniswap.lt (Uniswap.sub (Uniswap.eth_balance r) Uniswap.lit_0_02) amount = false
       /\ Uniswap.lt (Uniswap.div
                        (Uniswap.div (Uniswap.mul (Uniswap.token_balance r)
                                                  (Uniswap.of_int 95))
                                     (Uniswap.of_int 100))
                        (Uniswap.uniswap_price r)) amount = false.
Proof.
  intros Hin.
  pose proof (place_liquidity_calls exchange self r chain) as Hcalls.
  destruct Hcalls as [ | a b _ _ Hpos Hprice Ha _ | _ _ ]; try contradiction.
  destruct Hin as [Hin | []]. inversion Hin; subst.
  split; [exact Hpos|]. split; [exact Hprice|].
  eexists. split; [exact Ha|]. apply py_min_lower.
Qed.

(** The deposit of the reading with pool price 100.5, in binary64. *)
Lemma deposit_keeps_gas_reserve_witness :
  In (Uniswap.token Sample.keeper64, 2980000000000000000, 1490000000000000000)
     (Uniswap.deposits
        (events (Uniswap.place_liquidity Sample.pool Sample.keeper64 Sample.near64 0)))
  /\ PrimFloat.ltb 0%float (PrimFloat.sub 3%float 0x1.47ae147ae147bp-6%float) = true.
Proof.
  assert (Hsent : In (Uniswap.token Sample.keeper64, 2980000000000000000,
                      1490000000000000000)
                     (Uniswap.deposits
                        (events (Uniswap.place_liquidity Sample.pool Sample.keeper64
                                   Sample.near64 0))))
    by (vm_compute; left; reflexivity).
  split; [exact Hsent|].
  exact (proj1 (deposit_keeps_gas_reserve Sample.pool Sample.keeper64 Sample.near64 0
                  _ _ _ Hsent)).
Defined.

(** With a pool price of zero, a tick that finds the deviation below the
    threshold ends in [ZeroDivisionError], raised while it logs the
    calculated liquidity: nothing is sent and the chain is left as it was. *)
Theorem zero_pool_price_aborts {num : Type} {number : Uniswap.PyNumber num} {Chain : Type}
    (exchange : Uniswap.Exchange Chain) (self : Uniswap.Keeper) (r : Uniswap.Reading)
    (chain : Chain) :
  Uniswap.is_zero (Uniswap.of_int 100) = false ->
  Uniswap.is_zero (Uniswap.uniswap_price r) = true ->
  Uniswap.lt (Uniswap.deviation r) (Uniswap.threshold self r) = true ->
  Uniswap.place_liquidity exchange self r chain
    = mkRes [Uniswap.LogInfo "Feed price, Uniswap price, Diff";
             Uniswap.LogInfo "ETH balance, DAI balance";
             Uniswap.LogInfo "Wallet liquidity"]
            chain (inl ZeroDivisionError).
Proof.
  intros H100 Hprice Hbelow. apply wp_result.
  unfold Uniswap.place_liquidity, Uniswap.diff_of, Uniswap.truediv at 1.
  rewrite H100. fold (Uniswap.threshold self r). repeat wp_step. rewrite Hbelow.
  unfold Uniswap.add_branch, Uniswap.truediv. rewrite Hprice. repeat wp_step.
  reflexivity.
Qed.

(** Feed price 100, pool price 0 and [--percentage-difference 150], in
    binary64: the deviation 100 is below the threshold 150. *)
Lemma zero_pool_price_aborts_witness :
  outcome (Uniswap.place_liquidity Sample.pool
             (Uniswap.mkKeeper (num := float) "0x6B175474E89094C44Da98b954EedeAC495271d0F"
                               150%float)
             (Uniswap.mkReading 100%float 0%float 1000%float 3%float) 0)
    = inl ZeroDivisionError.
Proof.
  rewrite (zero_pool_price_aborts Sample.pool
             (Uniswap.mkKeeper (num := float) "0x6B175474E89094C44Da98b954EedeAC495271d0F"
                               150%float)
             (Uniswap.mkReading 100%float 0%float 1000%float 3%float) 0);
    [reflexivity | vm_compute; reflexivity | vm_compute; reflexivity
     | vm_compute; reflexivity].
Defined.

(** ** The private key of the Uniswap keeper *)

Lemma has_char_append (c : ascii) (a b : string) :
  has_char c (String.append a b) = has_char c a || has_char c b.
Proof.
  induction a as [|c' a IH]; [rewrite append_empty; reflexivity|].
  rewrite append_cons. cbn [has_char]. rewrite IH. apply orb_assoc.
Qed.




Lemma split_assignment (var val : string) :
  has_char "=" var = false -> has_char "=" val = false ->
  PyStr.split "=" (String.append var (String "=" val)) = [var; val].
Proof.
  intros Hvar Hval.
  rewrite (split_at_separator "=" var val Hvar), (split_without_separator "=" val Hval).
  reflexivity.
Qed.

Lemma no_comma_in_assignment (var val : string) :
  has_char "," var = false -> has_char "," val = false ->
  has_char "," (String.append var (String "=" val)) = false.
Proof.
  intros Hvar Hval. rewrite has_char_append, Hvar. cbn [has_char orb]. exact Hval.
Qed.

(** With [key_file=K,pass_file=P], in either order, where the two paths hold
    no comma and no equals sign, the password path is not empty and both
    files can be read: the key file is opened, then the password file, and
    the key is decrypted with the content of the one and the content of
    the other with every newline taken out; nothing is prompted. *)
Theorem key_and_pass_file (world : KeyFile.World) (key_path pass_path : string)
    (read_key content : string) (others : list string) :
  has_char "," key_path = false -> has_char "=" key_path = false ->
  has_char "," pass_path = false -> has_char "=" pass_path = false ->
  pass_path <> EmptyString ->
  KeyFile.read_file world key_path = Some read_key ->
  KeyFile.read_file world pass_path = Some content ->
  KeyFile._extract_private_key world
    (Some (String.append (String.append "key_file" (String "=" key_path))
                         (String "," (String.append "pass_file" (String "=" pass_path)))
           :: others))
    = ([KeyFile.Opened key_path; KeyFile.Opened pass_path],
       KeyFile.decrypt world read_key (remove_char KeyFile.newline content))
  /\ KeyFile._extract_private_key world
       (Some (String.append (String.append "pass_file" (String "=" pass_path))
                            (String "," (String.append "key_file" (String "=" key_path)))
              :: others))
     = ([KeyFile.Opened key_path; KeyFile.Opened pass_path],
        KeyFile.decrypt world read_key (remove_char KeyFile.newline content))
  /\ has_char KeyFile.newline (remove_char KeyFile.newline content) = false.
Proof.
  intros Hkc Hke Hpc Hpe Hpass Hkey Hcontent.
  assert (Htruthy : KeyFile.truthy (Some pass_path) = true)
    by (destruct pass_path; [congruence | reflexivity]).
  split; [|split; [|apply remove_char_gone]].
  - cbn [KeyFile._extract_private_key].
    rewrite (split_at_separator "," _ _ (no_comma_in_assignment "key_file" key_path eq_refl Hkc)).
    rewrite (split_without_separator "," _
               (no_comma_in_assignment "pass_file" pass_path eq_refl Hpc)).
    cbn [KeyFile.parse].
    rewrite (split_assignment "key_file" key_path eq_refl Hke),
      (split_assignment "pass_file" pass_path eq_refl Hpe).
    cbn [KeyFile.unpack].
    rewrite lookup_insert_ne by discriminate. rewrite !lookup_insert_eq.
    unfold KeyFile.open_and_read. rewrite Hkey, Htruthy, Hcontent. reflexivity.
  - cbn [KeyFile._extract_private_key].
    rewrite (split_at_separator "," _ _
               (no_comma_in_assignment "pass_file" pass_path eq_refl Hpc)).
    rewrite (split_without_separator "," _
               (no_comma_in_assignment "key_file" key_path eq_refl Hkc)).
    cbn [KeyFile.parse].
    rewrite (split_assignment "key_file" key_path eq_refl Hke),
      (split_assignment "pass_file" pass_path eq_refl Hpe).
    cbn [KeyFile.unpack].
    rewrite lookup_insert_eq. rewrite lookup_insert_ne by discriminate.
    rewrite lookup_insert_eq.
    unfold KeyFile.open_and_read. rewrite Hkey, Htruthy, Hcontent. reflexivity.
Qed.

(** [key_file=aaa.json,pass_file=aaa.pass], the password file ending in a
    newline. *)
Lemma key_and_pass_file_witness :
  KeyFile._extract_private_key sample_world
    (Some ["key_file=aaa.json,pass_file=aaa.pass"])
    = ([KeyFile.Opened "aaa.json"; KeyFile.Opened "aaa.pass"], inr "{crypto}/secret").
Proof.
  exact (proj1 (key_and_pass_file sample_world "aaa.json" "aaa.pass" "{crypto}"
                  (String.append "secret" (String KeyFile.newline EmptyString)) []
                  eq_refl eq_refl eq_refl eq_refl
                  (fun H : "aaa.pass" = EmptyString =>
                     eq_ind "aaa.pass"
                       (fun s => match s with EmptyString => False | String _ _ => True end)
                       I EmptyString H)
                  eq_refl eq_refl)).
Defined.

(** With [key_file=K] alone, or with an empty [pass_file=] after it, the key
    file is opened, the password is asked for with the prompt
    [Password for K: ], and the key is decrypted with what was typed; no
    password file is opened. *)
Theorem key_file_alone_prompts (world : KeyFile.World) (key_path read_key : string)
    (others : list string) :
  has_char "," key_path = false -> has_char "=" key_path = false ->
  KeyFile.read_file world key_path = Some read_key ->
  KeyFile._extract_private_key world
    (Some (String.append "key_file" (String "=" key_path) :: others))
    = ([KeyFile.Opened key_path;
        KeyFile.Prompted (String.append "Password for " (String.append key_path ": "))],
       KeyFile.decrypt world read_key
         (KeyFile.getpass world
            (String.append "Password for " (String.append key_path ": "))))
  /\ KeyFile._extract_private_key world
       (Some (String.append (String.append "key_file" (String "=" key_path))
                            (String "," (String.append "pass_file" (String "=" EmptyString)))
              :: others))
     = ([KeyFile.Opened key_path;
         KeyFile.Prompted (String.append "Password for " (String.append key_path ": "))],
        KeyFile.decrypt world read_key
          (KeyFile.getpass world
             (String.append "Password for " (String.append key_path ": ")))).
Proof.
  intros Hkc Hke Hkey. split.
  - cbn [KeyFile._extract_private_key].
    rewrite (split_without_separator "," _
               (no_comma_in_assignment "key_file" key_path eq_refl Hkc)).
    cbn [KeyFile.parse].
    rewrite (split_assignment "key_file" key_path eq_refl Hke).
    cbn [KeyFile.unpack].
    rewrite lookup_insert_eq. rewrite lookup_insert_ne by discriminate.
    rewrite lookup_empty.
    unfold KeyFile.open_and_read. rewrite Hkey. reflexivity.
  - cbn [KeyFile._extract_private_key].
    rewrite (split_at_separator "," _ _ (no_comma_in_assignment "key_file" key_path eq_refl Hkc)).
    rewrite (split_without_separator "," _
               (no_comma_in_assignment "pass_file" EmptyString eq_refl eq_refl)).
    cbn [KeyFile.parse].
    rewrite (split_assignment "key_file" key_path eq_refl Hke),
      (split_assignment "pass_file" EmptyString eq_refl eq_refl).
    cbn [KeyFile.unpack].
    rewrite lookup_insert_ne by discriminate. rewrite !lookup_insert_eq.
    unfold KeyFile.open_and_read. rewrite Hkey. reflexivity.
Qed.

(** [key_file=aaa.json] and a password typed at the prompt. *)
Lemma key_file_alone_prompts_witness :
  KeyFile._extract_private_key sample_world (Some ["key_file=aaa.json"])
    = ([KeyFile.Opened "aaa.json"; KeyFile.Prompted "Password for aaa.json: "],
       inr "{crypto}/typed").
Proof.
  exact (proj1 (key_file_alone_prompts sample_world "aaa.json" "{crypto}" []
                  eq_refl eq_refl eq_refl)).
Defined.



